(** * Authentication middleware of the private LLM gateway

    A shallow embedding of [src/api/auth-middleware.py]: the [User] and
    [Session] records, the [AuthenticationManager] with its two encrypted
    stores, the sliding-window counters for rate limiting and failed
    logins, and the [AuthenticationRequired] request wrapper.

    Conventions of the embedding.
    - A method [m(self, a, b)] becomes a function [m I e a b st] that
      returns the method's result together with the manager after the
      call.  [I] holds what the module imports, [e] holds what the call
      reads from its surroundings (clocks, random draws, the environment
      variable, whether the disk accepts a write).
    - [datetime] values are integers counting microseconds, so
      [timedelta(hours=24)] is [86400000000]; [time.time()] values are
      integers counting seconds, so the window constant stays [3600].
    - [self.users] and [self.sessions] are iterated by the source, and a
      Python dict iterates in insertion order: both are insertion-ordered
      association lists ([pydict]).  [self.rate_limits] and
      [self.failed_attempts] are only read and written by key: both are
      [gmap]s.
    - A [Session] is a mutable object that the source updates in place and
      that can outlive its entry in [self.sessions]; session objects live
      in [heap] and [self.sessions] maps a session id to an object
      reference.  [User] objects are only ever reached through
      [self.users], so they are kept by value under their key.
    - Left out: [__init__] with its key files, [_load_sessions] and
      [generate_jwt_token]. *)

From Stdlib Require Import ZArith String List Bool Lia.
From stdpp Require Import base option list strings pretty gmap fin_maps.

Local Open Scope Z_scope.

(** ** Insertion-ordered dictionaries *)

Module pydict.
Section defs.
Context {V : Type}.

Definition t := list (string * V).

(** [d.get(k)] *)
Fixpoint get (k : string) (d : t) : option V :=
  match d with
  | [] => None
  | (k', v) :: d' => if String.eqb k k' then Some v else get k d'
  end.

(** [k in d] *)
Definition contains (k : string) (d : t) : bool :=
  match get k d with Some _ => true | None => false end.

(** [d[k] = v]: an existing key keeps its position, a new key goes last. *)
Fixpoint set (k : string) (v : V) (d : t) : t :=
  match d with
  | [] => [(k, v)]
  | (k', v') :: d' =>
      if String.eqb k k' then (k', v) :: d' else (k', v') :: set k v d'
  end.

(** [del d[k]] *)
Fixpoint del (k : string) (d : t) : t :=
  match d with
  | [] => []
  | (k', v') :: d' =>
      if String.eqb k k' then del k d' else (k', v') :: del k d'
  end.

(** [d.values()] and [d.items()], in iteration order. *)
Definition values (d : t) : list V := map snd d.
Definition items (d : t) : list (string * V) := d.

End defs.
Global Arguments t : clear implicits.
End pydict.

(** ** Data model *)

(** What a field declared [datetime] holds at run time.  [_load_users]
    builds a [User] from decoded JSON by unpacking [user_data] into the
    constructor's keyword arguments, which stores the ISO string as it is,
    so such a field holds a [str] after a load. *)
Inductive pytime :=
  | PDatetime (t : Z)
  | PStr (s : string).

Module User.
Record t := mk {
  username : string;
  password_hash : string;
  api_keys : list string;
  permissions : list string;
  created_at : pytime;
  last_login : option pytime;
  is_active : bool;
  rate_limit : Z
}.
End User.

Module Session.
Record t := mk {
  session_id : string;
  user_id : string;
  created_at : Z;
  expires_at : Z;
  ip_address : string;
  user_agent : string;
  is_active : bool
}.

(** [session.is_active = False] *)
Definition deactivate (s : t) : t :=
  mk (session_id s) (user_id s) (created_at s) (expires_at s)
     (ip_address s) (user_agent s) false.
End Session.

(** A reference to a [Session] object: its index in the heap. *)
#[warnings="-notation-for-abbreviation"]
Notation loc := nat (only parsing).

(** Values of the [json] module. *)
#[warnings="-register-all"]
Inductive jval :=
  | JNull
  | JBool (b : bool)
  | JNum (n : Z)
  | JStr (s : string)
  | JArr (l : list jval)
  | JObj (kvs : list (string * jval)).

(** The exceptions the modelled code can meet. *)
Inductive exn :=
  | NameError
  | AttributeError
  | TypeError
  | ValueError (msg : string)
  | OSError
  | InvalidToken
  | JSONDecodeError.

(** [jwt.decode]: a payload with its optional ["sub"], or one of the two
    exceptions [authenticate_jwt] catches. *)
Inductive jwt_result :=
  | JwtPayload (sub : option string)
  | ExpiredSignatureError
  | InvalidTokenError.

Record JsonModule := {
  dumps : jval → string;
  loads : string → option jval
}.

(** What the module takes from its imports.  [json] is the binding of the
    global name [json]: the source calls [json.dumps] and [json.loads], and
    its import block (lines 7-21) has no [import json]; see
    [source_has_no_json]. *)
Record Imports := {
  pwd_verify : string → string → bool;      (* pwd_context.verify(password, hash) *)
  pwd_hash : string → string → string;      (* pwd_context.hash(password), by salt *)
  jwt_decode : string → Z → jwt_result;     (* jwt.decode(token, secret, ...) at a time *)
  fernet_encrypt : string → string;         (* cipher.encrypt *)
  fernet_decrypt : string → option string;  (* cipher.decrypt, None: InvalidToken *)
  isoformat : Z → string;                   (* datetime.isoformat *)
  json : option JsonModule
}.

(** The source file as it stands: the name [json] is unbound. *)
Definition source_has_no_json (I : Imports) : Prop := json I = None.

(** What one call reads from outside the manager. *)
Record Env := {
  utcnow : Z;                 (* first datetime.utcnow() of the call *)
  utcnow2 : Z;                (* second datetime.utcnow() of the call *)
  time_time : Z;              (* time.time() *)
  strict_session_ip : bool;   (* os.getenv("STRICT_SESSION_IP", "false") == "true" *)
  disk_ok : bool;             (* open(..., "wb") succeeds; false: it raises OSError *)
  token_urlsafe : string;     (* secrets.token_urlsafe(32) *)
  salt : string               (* the salt pwd_context.hash draws *)
}.

(** Calls and prints worth observing, oldest first.  The log is not part of
    the source; it records that a call was made. *)
Inductive event :=
  | CalledVerify (password hash : string)
  | CalledJwt (token : string)
  | CalledApiKey (api_key : string)
  | CalledValidateSession (session_id ip_address : string)
  | Printed (msg : string).

(** The manager, the two files it writes, and the log. *)
Record AuthenticationManager := mkManager {
  users : pydict.t User.t;
  sessions : pydict.t loc;
  heap : list Session.t;
  rate_limits : gmap string (list Z);
  failed_attempts : gmap string (list Z);
  users_file : option string;
  sessions_file : option string;
  log : list event
}.

Definition with_users (u : pydict.t User.t) (st : AuthenticationManager) :=
  mkManager u (sessions st) (heap st) (rate_limits st) (failed_attempts st)
            (users_file st) (sessions_file st) (log st).
Definition with_sessions (s : pydict.t loc) (st : AuthenticationManager) :=
  mkManager (users st) s (heap st) (rate_limits st) (failed_attempts st)
            (users_file st) (sessions_file st) (log st).
Definition with_heap (h : list Session.t) (st : AuthenticationManager) :=
  mkManager (users st) (sessions st) h (rate_limits st) (failed_attempts st)
            (users_file st) (sessions_file st) (log st).
Definition with_rate_limits (r : gmap string (list Z)) (st : AuthenticationManager) :=
  mkManager (users st) (sessions st) (heap st) r (failed_attempts st)
            (users_file st) (sessions_file st) (log st).
Definition with_failed_attempts (f : gmap string (list Z)) (st : AuthenticationManager) :=
  mkManager (users st) (sessions st) (heap st) (rate_limits st) f
            (users_file st) (sessions_file st) (log st).
Definition with_users_file (f : option string) (st : AuthenticationManager) :=
  mkManager (users st) (sessions st) (heap st) (rate_limits st) (failed_attempts st)
            f (sessions_file st) (log st).
Definition with_sessions_file (f : option string) (st : AuthenticationManager) :=
  mkManager (users st) (sessions st) (heap st) (rate_limits st) (failed_attempts st)
            (users_file st) f (log st).
Definition emit (ev : event) (st : AuthenticationManager) :=
  mkManager (users st) (sessions st) (heap st) (rate_limits st) (failed_attempts st)
            (users_file st) (sessions_file st) (log st ++ [ev]).

(** The session object a session id names, if any. *)
Definition session_at (st : AuthenticationManager) (sid : string)
  : option (loc * Session.t) :=
  l ← pydict.get sid (sessions st); s ← heap st !! l; Some (l, s).

(** ** Persistence: [_save_users], [_save_sessions], [_load_users] *)

Section persistence.
Variable I : Imports.

(** [t.isoformat()]; a [str] has no such method. *)
Definition isoformat_of (t : pytime) : exn + string :=
  match t with
  | PDatetime z => inr (isoformat I z)
  | PStr _ => inl AttributeError
  end.

(** The truth value the source tests in [if user.last_login]. *)
Definition truthy_time (o : option pytime) : bool :=
  match o with
  | None => false
  | Some (PDatetime _) => true
  | Some (PStr s) => negb (String.eqb s "")
  end.

(** The dict literal [_save_users] builds for one user (lines 162-171). *)
Definition user_to_json (u : User.t) : exn + jval :=
  match isoformat_of (User.created_at u) with
  | inl x => inl x
  | inr c =>
      let ll :=
        if truthy_time (User.last_login u) then
          match User.last_login u with
          | Some t => match isoformat_of t with
                      | inl x => inl x
                      | inr s => inr (JStr s)
                      end
          | None => inr JNull
          end
        else inr JNull in
      match ll with
      | inl x => inl x
      | inr l =>
          inr (JObj [("username", JStr (User.username u));
                     ("password_hash", JStr (User.password_hash u));
                     ("api_keys", JArr (map JStr (User.api_keys u)));
                     ("permissions", JArr (map JStr (User.permissions u)));
                     ("created_at", JStr c);
                     ("last_login", l);
                     ("is_active", JBool (User.is_active u));
                     ("rate_limit", JNum (User.rate_limit u))]%string)
      end
  end.

(** The loop of lines 161-171 over [self.users.items()]. *)
Fixpoint users_data_loop (its : list (string * User.t)) (acc : pydict.t jval)
  : exn + pydict.t jval :=
  match its with
  | [] => inr acc
  | (k, u) :: rest =>
      match user_to_json u with
      | inl x => inl x
      | inr j => users_data_loop rest (pydict.set k j acc)
      end
  end.

(** The dict literal [_save_sessions] builds for one session (lines 219-227). *)
Definition session_to_json (s : Session.t) : jval :=
  JObj [("session_id", JStr (Session.session_id s));
        ("user_id", JStr (Session.user_id s));
        ("created_at", JStr (isoformat I (Session.created_at s)));
        ("expires_at", JStr (isoformat I (Session.expires_at s)));
        ("ip_address", JStr (Session.ip_address s));
        ("user_agent", JStr (Session.user_agent s));
        ("is_active", JBool (Session.is_active s))]%string.

(** The loop of lines 218-227 over [self.sessions.items()].  A reference
    with no object behind it cannot arise in Python; the model skips it. *)
Fixpoint sessions_data_loop (h : list Session.t) (its : list (string * loc))
    (acc : pydict.t jval) : pydict.t jval :=
  match its with
  | [] => acc
  | (k, l) :: rest =>
      match h !! l with
      | Some s => sessions_data_loop h rest (pydict.set k (session_to_json s) acc)
      | None => sessions_data_loop h rest acc
      end
  end.

(** The rest of either [try] block: [json.dumps], [cipher.encrypt], then
    [open], [write] and [chmod].  The result is the bytes now in the file,
    or the exception that left the [try] block.  A disk that refuses is
    modelled at [open], which leaves the file as it was; a [write] or
    [chmod] that fails after [open] succeeded is not modelled. *)
Definition flush (e : Env) (data : exn + pydict.t jval) : exn + string :=
  match data with
  | inl x => inl x
  | inr d =>
      match json I with
      | None => inl NameError
      | Some J =>
          let data_str := dumps J (JObj d) in
          let encrypted_data := fernet_encrypt I data_str in
          if disk_ok e then inr encrypted_data else inl OSError
      end
  end.

Definition flush_users (e : Env) (st : AuthenticationManager) : exn + string :=
  flush e (users_data_loop (pydict.items (users st)) []).

Definition flush_sessions (e : Env) (st : AuthenticationManager) : exn + string :=
  flush e (inr (sessions_data_loop (heap st) (pydict.items (sessions st)) [])).

(** [_save_users]: the [except Exception] clause prints and falls through,
    so the method returns normally whatever happened. *)
Definition _save_users (e : Env) (st : AuthenticationManager) : AuthenticationManager :=
  match flush_users e st with
  | inr encrypted_data => with_users_file (Some encrypted_data) st
  | inl _ => emit (Printed "Failed to save users") st
  end.

(** [_save_sessions], likewise. *)
Definition _save_sessions (e : Env) (st : AuthenticationManager) : AuthenticationManager :=
  match flush_sessions e st with
  | inr encrypted_data => with_sessions_file (Some encrypted_data) st
  | inl _ => emit (Printed "Failed to save sessions") st
  end.

(** What a constructor call over decoded JSON gives.  [RawValues]: a field
    holds a JSON value of a type [_save_users] never writes there; Python
    stores it as it is, and the typed [User.t] cannot, so such files are
    left outside the model. *)
Inductive loaded (A : Type) :=
  | Loaded (a : A)
  | RawValues.
Global Arguments Loaded {A} a.
Global Arguments RawValues {A}.

Definition strings_of (l : list jval) : option (list string) :=
  mapM (λ j, match j with JStr s => Some s | _ => None end) l.

(** The constructor call of line 149 with [user_data] unpacked into keyword
    arguments: a [TypeError] unless [user_data] is a mapping with exactly
    the eight field names; the values are stored unconverted. *)
Definition construct_user (user_data : jval) : exn + loaded User.t :=
  match user_data with
  | JObj kvs =>
      match pydict.get "username" kvs, pydict.get "password_hash" kvs,
            pydict.get "api_keys" kvs, pydict.get "permissions" kvs,
            pydict.get "created_at" kvs, pydict.get "last_login" kvs,
            pydict.get "is_active" kvs, pydict.get "rate_limit" kvs with
      | Some un, Some ph, Some ak, Some pm, Some ca, Some ll, Some ia, Some rl =>
          if negb (Nat.eqb (length kvs) 8) then inl TypeError
          else
            match un, ph, ak, pm, ca, ia, rl with
            | JStr un, JStr ph, JArr ak, JArr pm, JStr ca, JBool ia, JNum rl =>
                match strings_of ak, strings_of pm, ll with
                | Some ak, Some pm, JNull =>
                    inr (Loaded (User.mk un ph ak pm (PStr ca) None ia rl))
                | Some ak, Some pm, JStr ll =>
                    inr (Loaded (User.mk un ph ak pm (PStr ca) (Some (PStr ll)) ia rl))
                | _, _, _ => inr RawValues
                end
            | _, _, _, _, _, _, _ => inr RawValues
            end
      | _, _, _, _, _, _, _, _ => inl TypeError
      end
  | _ => inl TypeError
  end.

(** The loop of lines 147-149 over [users_data.items()]. *)
Fixpoint load_users_loop (its : list (string * jval)) (acc : pydict.t User.t)
  : exn + loaded (pydict.t User.t) :=
  match its with
  | [] => inr (Loaded acc)
  | (k, user_data) :: rest =>
      match construct_user user_data with
      | inl x => inl x
      | inr RawValues => inr RawValues
      | inr (Loaded u) => load_users_loop rest (pydict.set k u acc)
      end
  end.

(** The [try] block of [_load_users] (lines 141-151). *)
Definition try_load_users (encrypted_data : string) : exn + loaded (pydict.t User.t) :=
  match fernet_decrypt I encrypted_data with
  | None => inl InvalidToken
  | Some decrypted_data =>
      match json I with
      | None => inl NameError
      | Some J =>
          match loads J decrypted_data with
          | None => inl JSONDecodeError
          | Some (JObj users_data) => load_users_loop users_data []
          | Some _ => inl AttributeError
          end
      end
  end.

(** [_load_users]: an absent file and every exception give the empty dict. *)
Definition _load_users (st : AuthenticationManager)
  : loaded (pydict.t User.t) * AuthenticationManager :=
  match users_file st with
  | None => (Loaded [], st)
  | Some encrypted_data =>
      match try_load_users encrypted_data with
      | inr r => (r, st)
      | inl _ => (Loaded [], emit (Printed "Failed to load users") st)
      end
  end.
End persistence.

(** ** The manager's methods *)

Section manager.
Variable I : Imports.

(** The one-hour window, in the unit of [time.time()]. *)
Definition WINDOW : Z := 3600.
(** [timedelta(hours=24)], in the unit of [datetime]. *)
Definition SESSION_TTL : Z := 86400000000.

(** [_generate_api_key] *)
Definition _generate_api_key (e : Env) : string :=
  String.append "pllm_" (token_urlsafe e).

(** [_record_failed_attempt] (lines 339-351) *)
Definition _record_failed_attempt (e : Env) (identifier : string)
    (st : AuthenticationManager) : AuthenticationManager :=
  let now := time_time e in
  let fa0 := failed_attempts st in
  let fa1 := match fa0 !! identifier with
             | None => <[identifier := []]> fa0
             | Some _ => fa0
             end in
  let kept := filter (λ attempt, now - attempt < WINDOW)
                     (default [] (fa1 !! identifier)) in
  let fa2 := <[identifier := kept]> fa1 in
  let fa3 := <[identifier := default [] (fa2 !! identifier) ++ [now]]> fa2 in
  with_failed_attempts fa3 st.

(** [is_blocked] (lines 353-359) *)
Definition is_blocked (identifier : string) (st : AuthenticationManager) : bool :=
  match failed_attempts st !! identifier with
  | None => false
  | Some attempts => bool_decide (5 ≤ length attempts)%nat
  end.

(** [authenticate_user] (lines 240-255) *)
Definition authenticate_user (e : Env) (username password : string)
    (st : AuthenticationManager) : option User.t * AuthenticationManager :=
  match pydict.get username (users st) with
  | None => (None, st)
  | Some user =>
      if negb (User.is_active user) then (None, st)
      else
        let st := emit (CalledVerify password (User.password_hash user)) st in
        if negb (pwd_verify I password (User.password_hash user)) then
          (None, _record_failed_attempt e username st)
        else
          let user := User.mk (User.username user) (User.password_hash user)
                        (User.api_keys user) (User.permissions user)
                        (User.created_at user) (Some (PDatetime (utcnow e)))
                        (User.is_active user) (User.rate_limit user) in
          let st := with_users (pydict.set username user (users st)) st in
          (Some user, _save_users I e st)
  end.

(** [authenticate_api_key] (lines 257-263): the first user, in iteration
    order, that holds the key and is active. *)
Definition authenticate_api_key (api_key : string) (st : AuthenticationManager)
  : option User.t * AuthenticationManager :=
  let st := emit (CalledApiKey api_key) st in
  (List.find (λ user, existsb (String.eqb api_key) (User.api_keys user)
                      && User.is_active user)
             (pydict.values (users st)), st).

(** [authenticate_jwt] (lines 265-283) *)
Definition authenticate_jwt (e : Env) (token : string) (st : AuthenticationManager)
  : option User.t * AuthenticationManager :=
  let st := emit (CalledJwt token) st in
  match jwt_decode I token (utcnow e) with
  | JwtPayload sub =>
      match sub with
      | None => (None, st)
      | Some username =>
          if String.eqb username "" then (None, st)
          else
            match pydict.get username (users st) with
            | None => (None, st)
            | Some user =>
                if negb (User.is_active user) then (None, st) else (Some user, st)
            end
      end
  | ExpiredSignatureError => (None, st)
  | InvalidTokenError => (None, st)
  end.

(** [create_session] (lines 296-312).  The new object takes the next free
    reference; [self.sessions[session_id] = session] binds the drawn id to
    it, whatever the id was bound to. *)
Definition create_session (e : Env) (user : User.t) (ip_address user_agent : string)
    (st : AuthenticationManager) : loc * AuthenticationManager :=
  let session_id := token_urlsafe e in
  let session := Session.mk session_id (User.username user)
                   (utcnow e) (utcnow2 e + SESSION_TTL)
                   ip_address (String.substring 0 200 user_agent) true in
  let l := length (heap st) in
  let st := with_heap (heap st ++ [session]) st in
  let st := with_sessions (pydict.set session_id l (sessions st)) st in
  (l, _save_sessions I e st).

(** [validate_session] (lines 314-331) *)
Definition validate_session (e : Env) (session_id ip_address : string)
    (st : AuthenticationManager) : option loc * AuthenticationManager :=
  let st := emit (CalledValidateSession session_id ip_address) st in
  match session_at st session_id with
  | None => (None, st)
  | Some (l, session) =>
      if negb (Session.is_active session) then (None, st)
      else if bool_decide (Session.expires_at session < utcnow e) then
        let st := with_heap (<[l := Session.deactivate session]> (heap st)) st in
        (None, _save_sessions I e st)
      else if strict_session_ip e
              && negb (String.eqb (Session.ip_address session) ip_address) then
        (None, st)
      else (Some l, st)
  end.

(** [revoke_session] (lines 333-337) *)
Definition revoke_session (e : Env) (session_id : string)
    (st : AuthenticationManager) : AuthenticationManager :=
  match session_at st session_id with
  | None => st
  | Some (l, session) =>
      let st := with_heap (<[l := Session.deactivate session]> (heap st)) st in
      _save_sessions I e st
  end.

(** [check_rate_limit] (lines 361-380) *)
Definition check_rate_limit (e : Env) (user : User.t) (endpoint : string)
    (st : AuthenticationManager) : bool * AuthenticationManager :=
  let now := time_time e in
  let key := String.append (User.username user) (String.append ":" endpoint) in
  let rl0 := rate_limits st in
  let rl1 := match rl0 !! key with
             | None => <[key := []]> rl0
             | Some _ => rl0
             end in
  let kept := filter (λ req_time, now - req_time < WINDOW)
                     (default [] (rl1 !! key)) in
  let rl2 := <[key := kept]> rl1 in
  if bool_decide (User.rate_limit user ≤ Z.of_nat (length kept)) then
    (false, with_rate_limits rl2 st)
  else
    (true, with_rate_limits (<[key := kept ++ [now]]> rl2) st).

(** [create_user] (lines 382-401) *)
Definition create_user (e : Env) (username password : string)
    (permissions : list string) (st : AuthenticationManager)
  : (exn + User.t) * AuthenticationManager :=
  if pydict.contains username (users st) then
    (inl (ValueError "User already exists"), st)
  else
    let user := User.mk username (pwd_hash I (salt e) password)
                  [_generate_api_key e] permissions
                  (PDatetime (utcnow e)) None true 100 in
    let st := with_users (pydict.set username user (users st)) st in
    (inr user, _save_users I e st).

(** The loop of lines 410-412 over [self.sessions.values()]. *)
Fixpoint revoke_owned (username : string) (ls : list loc) (h : list Session.t)
  : list Session.t :=
  match ls with
  | [] => h
  | l :: rest =>
      let h' := match h !! l with
                | Some session =>
                    if String.eqb (Session.user_id session) username
                    then <[l := Session.deactivate session]> h
                    else h
                | None => h
                end in
      revoke_owned username rest h'
  end.

(** [delete_user] (lines 403-414) *)
Definition delete_user (e : Env) (username : string)
    (st : AuthenticationManager) : AuthenticationManager :=
  if pydict.contains username (users st) then
    let st := with_users (pydict.del username (users st)) st in
    let st := _save_users I e st in
    let st := with_heap (revoke_owned username (pydict.values (sessions st)) (heap st)) st in
    _save_sessions I e st
  else st.

(** [generate_new_api_key] (lines 416-426) *)
Definition generate_new_api_key (e : Env) (username : string)
    (st : AuthenticationManager) : (exn + string) * AuthenticationManager :=
  match pydict.get username (users st) with
  | None => (inl (ValueError "User not found"), st)
  | Some user =>
      let new_key := _generate_api_key e in
      let user := User.mk (User.username user) (User.password_hash user)
                    (User.api_keys user ++ [new_key]) (User.permissions user)
                    (User.created_at user) (User.last_login user)
                    (User.is_active user) (User.rate_limit user) in
      let st := with_users (pydict.set username user (users st)) st in
      (inr new_key, _save_users I e st)
  end.

(** [list.remove]: drops the first occurrence. *)
Fixpoint list_remove (x : string) (l : list string) : list string :=
  match l with
  | [] => []
  | y :: l' => if String.eqb x y then l' else y :: list_remove x l'
  end.

(** [revoke_api_key] (lines 428-436) *)
Definition revoke_api_key (e : Env) (username api_key : string)
    (st : AuthenticationManager) : AuthenticationManager :=
  match pydict.get username (users st) with
  | None => st
  | Some user =>
      if existsb (String.eqb api_key) (User.api_keys user) then
        let user := User.mk (User.username user) (User.password_hash user)
                      (list_remove api_key (User.api_keys user))
                      (User.permissions user) (User.created_at user)
                      (User.last_login user) (User.is_active user)
                      (User.rate_limit user) in
        let st := with_users (pydict.set username user (users st)) st in
        _save_users I e st
      else st
  end.

(** The comprehension of lines 441-444. *)
Definition expired_sessions (now : Z) (h : list Session.t)
    (its : list (string * loc)) : list string :=
  map fst (List.filter
             (λ it, match h !! snd it with
                    | Some session => bool_decide (Session.expires_at session < now)
                    | None => false
                    end) its).

(** [cleanup_expired_sessions] (lines 438-452) *)
Definition cleanup_expired_sessions (e : Env) (st : AuthenticationManager)
  : nat * AuthenticationManager :=
  let now := utcnow e in
  let expired := expired_sessions now (heap st) (pydict.items (sessions st)) in
  let st := with_sessions
              (fold_left (λ d session_id, pydict.del session_id d) expired (sessions st))
              st in
  let st := match expired with [] => st | _ :: _ => _save_sessions I e st end in
  (length expired, st).
End manager.

(** ** The request wrapper of [AuthenticationRequired.__call__] *)

Record Request := {
  authorization : option string;   (* request.headers.get("Authorization") *)
  session_cookie : option string;  (* request.cookies.get("session_id") *)
  client_host : option string;     (* request.client.host, None: no client *)
  url_path : string                (* request.url.path *)
}.

(** How the wrapper ends: one of its three [HTTPException]s, or the wrapped
    handler runs with [request.state.user] set. *)
Inductive response :=
  | HTTP401
  | HTTP403
  | HTTP429
  | Handled (user : User.t).

Section wrapper.
Variable I : Imports.

(** The token of lines 505-506, when the header starts with ["Bearer "]. *)
Definition bearer_token (auth_header : option string) : option string :=
  match auth_header with
  | Some h =>
      if negb (String.eqb h "") && String.prefix "Bearer " h
      then Some (String.substring 7 (String.length h - 7) h)
      else None
  | None => None
  end.

(** Lines 502-521: the credential chain. *)
Definition resolve (e : Env) (request : Request) (st : AuthenticationManager)
  : option User.t * AuthenticationManager :=
  match bearer_token (authorization request) with
  | Some token =>
      match authenticate_jwt I e token st with
      | (Some user, st) => (Some user, st)
      | (None, st) => authenticate_api_key token st
      end
  | None =>
      match session_cookie request with
      | Some cookie =>
          if String.eqb cookie "" then (None, st)
          else
            let client_ip := default "unknown"%string (client_host request) in
            match validate_session I e cookie client_ip st with
            | (Some l, st) =>
                match heap st !! l with
                | Some session => (pydict.get (Session.user_id session) (users st), st)
                | None => (None, st)
                end
            | (None, st) => (None, st)
            end
      | None => (None, st)
      end
  end.

(** Line 528: [any(perm in user.permissions for perm in permissions)]. *)
Definition has_any (required held : list string) : bool :=
  existsb (λ perm, existsb (String.eqb perm) held) required.

(** The wrapper (lines 497-538); [permissions] is the decorator's argument,
    and an absent or empty list demands nothing. *)
Definition wrapper (permissions : option (list string)) (e : Env)
    (request : Request) (st : AuthenticationManager)
  : response * AuthenticationManager :=
  match resolve e request st with
  | (None, st) => (HTTP401, st)
  | (Some user, st) =>
      let permitted := match permissions with
                       | Some (p :: ps) => has_any (p :: ps) (User.permissions user)
                       | _ => true
                       end in
      if negb permitted then (HTTP403, st)
      else
        match check_rate_limit e user (url_path request) st with
        | (false, st) => (HTTP429, st)
        | (true, st) => (Handled user, st)
        end
  end.
End wrapper.

(** ** Runs of the manager *)

(** The calls a client of the module can make. *)
Inductive op :=
  | AuthenticateUser (username password : string)
  | AuthenticateApiKey (api_key : string)
  | AuthenticateJwt (token : string)
  | CreateSession (user : User.t) (ip_address user_agent : string)
  | ValidateSession (session_id ip_address : string)
  | RevokeSession (session_id : string)
  | CheckRateLimit (user : User.t) (endpoint : string)
  | CreateUser (username password : string) (permissions : list string)
  | DeleteUser (username : string)
  | GenerateNewApiKey (username : string)
  | RevokeApiKey (username api_key : string)
  | CleanupExpiredSessions
  | Wrapper (permissions : option (list string)) (request : Request).

Section runs.
Variable I : Imports.

(** The manager after one call made in surroundings [e]. *)
Definition exec (e : Env) (o : op) (st : AuthenticationManager)
  : AuthenticationManager :=
  match o with
  | AuthenticateUser u p => snd (authenticate_user I e u p st)
  | AuthenticateApiKey k => snd (authenticate_api_key k st)
  | AuthenticateJwt t => snd (authenticate_jwt I e t st)
  | CreateSession u ip ua => snd (create_session I e u ip ua st)
  | ValidateSession sid ip => snd (validate_session I e sid ip st)
  | RevokeSession sid => revoke_session I e sid st
  | CheckRateLimit u ep => snd (check_rate_limit e u ep st)
  | CreateUser u p ps => snd (create_user I e u p ps st)
  | DeleteUser u => delete_user I e u st
  | GenerateNewApiKey u => snd (generate_new_api_key I e u st)
  | RevokeApiKey u k => revoke_api_key I e u k st
  | CleanupExpiredSessions => snd (cleanup_expired_sessions I e st)
  | Wrapper ps r => snd (wrapper I ps e r st)
  end.

(** The manager after a sequence of calls, each in its own surroundings. *)
Definition run (tr : list (Env * op)) (st : AuthenticationManager)
  : AuthenticationManager :=
  fold_left (λ st eo, exec (fst eo) (snd eo) st) tr st.
End runs.

(** ** Bootstrap and introspection *)

Section introspection.
Variable I : Imports.

(** [_create_default_admin] (lines 110-129).  [admin_password_env] is what
    [os.getenv] finds under [ADMIN_PASSWORD], [password_draw] the
    [secrets.token_urlsafe(16)] used when the variable is unset; the API key
    takes the draw of [e]. *)
Definition _create_default_admin (e : Env) (admin_password_env : option string)
    (password_draw : string) (st : AuthenticationManager) : AuthenticationManager :=
  let admin_password := default password_draw admin_password_env in
  let admin_user := User.mk "admin" (pwd_hash I (salt e) admin_password)
                      [_generate_api_key e]
                      ["admin"%string; "chat"%string; "models"%string]
                      (PDatetime (utcnow e)) None true 1000 in
  let st := with_users (pydict.set "admin" admin_user (users st)) st in
  let st := _save_users I e st in
  emit (Printed (String.append
                   "🔑 Default admin created - Username: admin, Password: "
                   admin_password)) st.

(** The expression of lines 168 and 464:
    [user.last_login.isoformat() if user.last_login else None]. *)
Definition last_login_json (user : User.t) : exn + jval :=
  if truthy_time (User.last_login user) then
    match User.last_login user with
    | Some t => match isoformat_of I t with
                | inl x => inl x
                | inr s => inr (JStr s)
                end
    | None => inr JNull
    end
  else inr JNull.

(** [get_user_info] (lines 454-468): [None] for an unknown user, else the
    dict of lines 460-468. *)
Definition get_user_info (username : string) (st : AuthenticationManager)
  : exn + option (pydict.t jval) :=
  match pydict.get username (users st) with
  | None => inr None
  | Some user =>
      match isoformat_of I (User.created_at user) with
      | inl x => inl x
      | inr c =>
          match last_login_json user with
          | inl x => inl x
          | inr l =>
              inr (Some [("username", JStr (User.username user));
                         ("permissions", JArr (map JStr (User.permissions user)));
                         ("created_at", JStr c);
                         ("last_login", l);
                         ("is_active", JBool (User.is_active user));
                         ("api_key_count", JNum (Z.of_nat (length (User.api_keys user))));
                         ("rate_limit", JNum (User.rate_limit user))]%string)
          end
      end
  end.

(** The dict of lines 475-481 for one session: the id cut to its first
    eight characters, the user agent to its first fifty when longer. *)
Definition session_info (session : Session.t) : pydict.t string :=
  [("session_id",
    String.append (String.substring 0 8 (Session.session_id session)) "...");
   ("created_at", isoformat I (Session.created_at session));
   ("expires_at", isoformat I (Session.expires_at session));
   ("ip_address", Session.ip_address session);
   ("user_agent",
    if (50 <? String.length (Session.user_agent session))%nat
    then String.append (String.substring 0 50 (Session.user_agent session)) "..."
    else Session.user_agent session)]%string.

(** The loop of lines 473-481 over [self.sessions.values()]. *)
Fixpoint active_sessions_loop (username : string) (h : list Session.t)
    (ls : list loc) : list (pydict.t string) :=
  match ls with
  | [] => []
  | l :: rest =>
      match h !! l with
      | Some session =>
          if String.eqb (Session.user_id session) username
             && Session.is_active session
          then session_info session :: active_sessions_loop username h rest
          else active_sessions_loop username h rest
      | None => active_sessions_loop username h rest
      end
  end.

(** [get_active_sessions] (lines 470-483) *)
Definition get_active_sessions (username : string) (st : AuthenticationManager)
  : list (pydict.t string) :=
  active_sessions_loop username (heap st) (pydict.values (sessions st)).
End introspection.

(** ** Sample values *)

Module demo.
(** A small printer standing for [json.dumps]. *)
Fixpoint print_json (j : jval) : string :=
  match j with
  | JNull => "null"
  | JBool b => if b then "true" else "false"
  | JNum n => pretty.pretty n
  | JStr s => String.append "'" (String.append s "'")
  | JArr l =>
      String.append "["
        ((fix go (l : list jval) : string :=
            match l with
            | [] => "]"
            | x :: l' => String.append (print_json x) (String.append "," (go l'))
            end) l)
  | JObj kvs =>
      String.append "{"
        ((fix go (l : list (string * jval)) : string :=
            match l with
            | [] => "}"
            | (k, x) :: l' =>
                String.append k
                  (String.append ":" (String.append (print_json x) (String.append "," (go l'))))
            end) kvs)
  end.

(** A decoder that knows the documents of a table. *)
Definition parse_json (table : list jval) (s : string) : option jval :=
  List.find (λ j, String.eqb (print_json j) s) table.

Definition encrypt (s : string) : string := String.append "enc:" s.
Definition decrypt (s : string) : option string :=
  if String.prefix "enc:" s
  then Some (String.substring 4 (String.length s - 4) s) else None.

Definition decode (token : string) (now : Z) : jwt_result :=
  if String.eqb token "jwt-alice" then
    if bool_decide (now < 5000) then JwtPayload (Some "alice"%string)
    else ExpiredSignatureError
  else InvalidTokenError.

(** The imports of the source file: no [json]. *)
Definition imports : Imports := {|
  pwd_verify := λ password hash, String.eqb hash (String.append "bcrypt:" password);
  pwd_hash := λ _ password, String.append "bcrypt:" password;
  jwt_decode := decode;
  fernet_encrypt := encrypt;
  fernet_decrypt := decrypt;
  isoformat := λ t, String.append "T" (pretty.pretty t);
  json := None
|}.

(** The same with a [json] module bound, had the file imported one. *)
Definition imports_with_json (table : list jval) : Imports := {|
  pwd_verify := pwd_verify imports;
  pwd_hash := pwd_hash imports;
  jwt_decode := decode;
  fernet_encrypt := encrypt;
  fernet_decrypt := decrypt;
  isoformat := isoformat imports;
  json := Some {| dumps := print_json; loads := parse_json table |}
|}.

Definition env (now : Z) : Env := {|
  utcnow := now; utcnow2 := now; time_time := now;
  strict_session_ip := false; disk_ok := true;
  token_urlsafe := "k3Qx"; salt := "s0"
|}.

Definition strict_env (now : Z) : Env := {|
  utcnow := now; utcnow2 := now; time_time := now;
  strict_session_ip := true; disk_ok := true;
  token_urlsafe := "k3Qx"; salt := "s0"
|}.

Definition alice : User.t :=
  User.mk "alice" "bcrypt:wonderland" ["pllm_a1"%string] ["chat"%string]
          (PDatetime 10) None true 2.

Definition bob : User.t :=
  User.mk "bob" "bcrypt:builder" ["pllm_b1"%string] ["admin"%string; "chat"%string]
          (PDatetime 20) None true 100.

(** Alice's session, expiring at time 1000. *)
Definition alice_session : Session.t :=
  Session.mk "sid-a" "alice" 0 1000 "10.0.0.1" "curl" true.

(** Bob's session. *)
Definition bob_session : Session.t :=
  Session.mk "sid-b" "bob" 0 1000 "10.0.0.2" "curl" true.

(** A manager just constructed over a store holding alice and bob and
    their two sessions. *)
Definition manager : AuthenticationManager :=
  mkManager [("alice"%string, alice); ("bob"%string, bob)]
            [("sid-a"%string, 0%nat); ("sid-b"%string, 1%nat)]
            [alice_session; bob_session] ∅ ∅ None None [].

(** The same manager once alice's session has been revoked. *)
Definition revoked_manager : AuthenticationManager :=
  with_heap [Session.deactivate alice_session; bob_session] manager.

(** Surroundings in which the random draw repeats alice's session id. *)
Definition colliding_env (now : Z) : Env := {|
  utcnow := now; utcnow2 := now; time_time := now;
  strict_session_ip := false; disk_ok := true;
  token_urlsafe := "sid-a"; salt := "s0"
|}.

(** A run that validates, revokes, logs bob in under a session id equal to
    alice's, sweeps expired sessions and deletes alice. *)
Definition busy_run : list (Env * op) :=
  [(env 10, ValidateSession "sid-a" "10.0.0.1");
   (env 20, RevokeSession "sid-a");
   (env 30, AuthenticateUser "bob" "builder");
   (colliding_env 31, CreateSession bob "10.0.0.2" "curl");
   (env 40, ValidateSession "sid-a" "10.0.0.2");
   (env 2000, CleanupExpiredSessions);
   (env 2001, DeleteUser "alice")].

(** Alice's limit is two requests an hour: a burst of three, and a fourth
    request after the burst is an hour old. *)
Definition burst : list Env := [env 100; env 200].
Definition burst_last : Env := env 300.
Definition after_burst : Env := env 3900.

(** A request carrying alice's token and bob's session cookie. *)
Definition both_credentials : Request := {|
  authorization := Some "Bearer jwt-alice"%string;
  session_cookie := Some "sid-b"%string;
  client_host := Some "10.0.0.2"%string;
  url_path := "/chat"
|}.

(** A request carrying a bearer string that is neither a token nor a key,
    and bob's session cookie. *)
Definition bad_bearer_good_cookie : Request := {|
  authorization := Some "Bearer nonsense"%string;
  session_cookie := Some "sid-b"%string;
  client_host := Some "10.0.0.2"%string;
  url_path := "/chat"
|}.

(** Surroundings in which the disk refuses the write. *)
Definition full_disk_env (now : Z) : Env := {|
  utcnow := now; utcnow2 := now; time_time := now;
  strict_session_ip := false; disk_ok := false;
  token_urlsafe := "k3Qx"; salt := "s0"
|}.

(** The document [_save_users] builds for the sample store. *)
Definition users_doc : jval :=
  match users_data_loop imports (pydict.items (users manager)) [] with
  | inr d => JObj d
  | inl _ => JNull
  end.

(** Five wrong passwords for alice within five seconds. *)
Definition five_failures : list (Env * op) :=
  [(env 100, AuthenticateUser "alice" "guess1");
   (env 101, AuthenticateUser "alice" "guess2");
   (env 102, AuthenticateUser "alice" "guess3");
   (env 103, AuthenticateUser "alice" "guess4");
   (env 104, AuthenticateUser "alice" "guess5")].

(** Six logins under a name the store does not know. *)
Definition mallory_run : list (Env * op) :=
  [(env 100, AuthenticateUser "mallory" "a");
   (env 101, AuthenticateUser "mallory" "b");
   (env 102, AuthenticateUser "mallory" "c");
   (env 103, AuthenticateUser "mallory" "d");
   (env 104, AuthenticateUser "mallory" "e");
   (env 105, AuthenticateUser "mallory" "f")].
End demo.

(** ** More sample values *)

Module samples.
(** Alice as stored with another hash and another key. *)
Definition alice_rekeyed : User.t :=
  User.mk "alice" "bcrypt:rabbit" ["pllm_zz"%string] ["chat"%string]
          (PDatetime 10) None true 2.

(** The sample store with alice re-keyed. *)
Definition rekeyed_manager : AuthenticationManager :=
  with_users [("alice"%string, alice_rekeyed); ("bob"%string, demo.bob)] demo.manager.

(** A manager whose stores are empty, as on a first start. *)
Definition empty_manager : AuthenticationManager :=
  mkManager [] [] [] ∅ ∅ None None [].

(** A request with a Basic header and bob's session cookie. *)
Definition basic_header_request : Request := {|
  authorization := Some "Basic Ym9iOmJ1aWxkZXI="%string;
  session_cookie := Some "sid-b"%string;
  client_host := Some "10.0.0.2"%string;
  url_path := "/models"
|}.

(** A request with no credential at all. *)
Definition anonymous_request : Request := {|
  authorization := None;
  session_cookie := None;
  client_host := Some "10.0.0.9"%string;
  url_path := "/chat"
|}.

(** A session with an id of the length [create_session] draws. *)
Definition long_id_session : Session.t :=
  Session.mk "Zq3vX8a1Lk0pQw7eRt5yUi9oPa2sDf4gHj6kLz8xCv0" "alice" 0 1000
             "10.0.0.1" "curl" true.
End samples.

(** * Vocabulary of the properties *)

(** Every object of [h] is still in [h'], unchanged or deactivated. *)
Definition evolves (h h' : list Session.t) : Prop :=
  ∀ l s, h !! l = Some s → h' !! l = Some s ∨ h' !! l = Some (Session.deactivate s).

(** The reading of [validate_session] that the specification gives: success
    exactly when the session exists, is active, and the current time is
    strictly before [expires_at]. *)
Definition validates_iff_unexpired (I : Imports) (e : Env) (sid ip : string)
    (st : AuthenticationManager) : Prop :=
  is_Some (fst (validate_session I e sid ip st)) ↔
  ∃ l s, session_at st sid = Some (l, s) ∧ Session.is_active s = true
         ∧ utcnow e < Session.expires_at s.

(** The identifier is in the store at no point of the run. *)
Definition never_known (I : Imports) (identifier : string) (tr : list (Env * op))
    (st : AuthenticationManager) : Prop :=
  ∀ tr1 tr2, tr = tr1 ++ tr2 → pydict.get identifier (users (run I tr1 st)) = None.

(** The identifier names no user, or a user that is not active. *)
Definition unknown_or_inactive (identifier : string) (st : AuthenticationManager) : Prop :=
  pydict.get identifier (users st) = None
  ∨ ∃ user, pydict.get identifier (users st) = Some user ∧ User.is_active user = false.

(** Users that are inactive have no recorded failure: kept by every call. *)
Definition inactive_unrecorded (st : AuthenticationManager) : Prop :=
  ∀ identifier user,
    pydict.get identifier (users st) = Some user → User.is_active user = false →
    failed_attempts st !! identifier = None.

(** The key of line 364. *)
Definition rate_key (user : User.t) (endpoint : string) : string :=
  String.append (User.username user) (String.append ":" endpoint).

(** The timestamps stored under a key, none if the key is absent. *)
Definition stamps (st : AuthenticationManager) (key : string) : list Z :=
  default [] (rate_limits st !! key).

(** The timestamps less than an hour old at [now]. *)
Definition live (now : Z) (l : list Z) : list Z :=
  filter (λ t, now - t < WINDOW) l.

(** A sequence of checks by one user on one endpoint, one per surroundings. *)
Fixpoint requests (user : User.t) (endpoint : string) (es : list Env)
    (st : AuthenticationManager) : list bool * AuthenticationManager :=
  match es with
  | [] => ([], st)
  | e :: es' =>
      let r := check_rate_limit e user endpoint st in
      let rs := requests user endpoint es' (snd r) in
      (fst r :: fst rs, snd rs)
  end.

(** Whatever it is given, the flush fails. *)
Definition flush_always_fails (I : Imports) (e : Env) : Prop :=
  ∀ data, ∃ x, flush I e data = inl x.

(** The fail-closed reading of the specification, for [create_user]: when
    the flush fails, so does the call. *)
Definition create_user_fails_closed (I : Imports) (e : Env)
    (username password : string) (permissions : list string)
    (st : AuthenticationManager) : Prop :=
  flush_always_fails I e →
  ∃ x, fst (create_user I e username password permissions st) = inl x.

(** A [datetime] field as [_load_users] hands it back: the ISO string. *)
Definition reloaded_time (I : Imports) (t : pytime) : pytime :=
  match t with
  | PDatetime z => PStr (isoformat I z)
  | PStr s => PStr s
  end.

(** A user as [_load_users] hands it back after [_save_users]. *)
Definition reloaded (I : Imports) (u : User.t) : User.t :=
  User.mk (User.username u) (User.password_hash u) (User.api_keys u)
          (User.permissions u) (reloaded_time I (User.created_at u))
          (reloaded_time I <$> User.last_login u) (User.is_active u)
          (User.rate_limit u).

(** The user holds the API key: [api_key in user.api_keys]. *)
Definition holds_key (api_key : string) (user : User.t) : bool :=
  existsb (String.eqb api_key) (User.api_keys user).

(** No key occurs twice, as in every Python dict. *)
Definition keys_unique {V : Type} (d : pydict.t V) : Prop := NoDup (map fst d).

(** Every user is stored under its own [username], and no name twice. *)
Definition users_wf (st : AuthenticationManager) : Prop :=
  keys_unique (users st)
  ∧ ∀ name user, (name, user) ∈ users st → User.username user = name.

(** Every session id of the dict names an object of the heap whose
    [session_id] is that id, and no id occurs twice. *)
Definition sessions_wf (st : AuthenticationManager) : Prop :=
  keys_unique (sessions st)
  ∧ ∀ sid l, (sid, l) ∈ sessions st →
             ∃ s, heap st !! l = Some s ∧ Session.session_id s = sid.

(** The string has a colon in it. *)
Fixpoint has_colon (s : string) : bool :=
  match s with
  | EmptyString => false
  | String c s' => String.eqb (String c EmptyString) ":" || has_colon s'
  end.

(** The session [create_session] builds (lines 299-307). *)
Definition new_session (e : Env) (user : User.t) (ip_address user_agent : string)
  : Session.t :=
  Session.mk (token_urlsafe e) (User.username user) (utcnow e)
             (utcnow2 e + SESSION_TTL) ip_address
             (String.substring 0 200 user_agent) true.

(** What every session object satisfies: it expires after it was created,
    and its user agent has at most 200 characters. *)
Definition session_ok (s : Session.t) : Prop :=
  Session.created_at s < Session.expires_at s
  ∧ (String.length (Session.user_agent s) ≤ 200)%nat.

(** Within the call, the second clock reading is not 24 hours or more
    before the first. *)
Definition clock_sane (e : Env) : Prop := utcnow e < utcnow2 e + SESSION_TTL.

(** * Properties *)

(** ** Dictionary facts *)

Section pydict_facts.
Context {V : Type}.
Implicit Types (d : pydict.t V) (k : string) (v : V).

Lemma get_set_eq k v d : pydict.get k (pydict.set k v d) = Some v.
Proof.
  induction d as [|[k' v'] d IH]; simpl.
  - by rewrite String.eqb_refl.
  - destruct (String.eqb k k') eqn:E; simpl; rewrite E; [done|apply IH].
Qed.

Lemma get_set_ne k k' v d : k ≠ k' → pydict.get k' (pydict.set k v d) = pydict.get k' d.
Proof.
  intros Hne. induction d as [|[k0 v0] d IH]; simpl.
  - destruct (String.eqb k' k) eqn:E; [|done].
    apply String.eqb_eq in E. congruence.
  - destruct (String.eqb k k0) eqn:E; simpl.
    + apply String.eqb_eq in E. subst k0.
      destruct (String.eqb k' k) eqn:E'; [|done].
      apply String.eqb_eq in E'. congruence.
    + by rewrite IH.
Qed.

Lemma get_del_eq k d : pydict.get k (pydict.del k d) = None.
Proof.
  induction d as [|[k' v'] d IH]; simpl; [done|].
  destruct (String.eqb k k') eqn:E; simpl; [done|]. by rewrite E.
Qed.

Lemma get_del_ne k k' d : k ≠ k' → pydict.get k' (pydict.del k d) = pydict.get k' d.
Proof.
  intros Hne. induction d as [|[k0 v0] d IH]; simpl; [done|].
  destruct (String.eqb k k0) eqn:E; simpl.
  - apply String.eqb_eq in E. subst k0.
    destruct (String.eqb k' k) eqn:E'; [|done].
    apply String.eqb_eq in E'. congruence.
  - by rewrite IH.
Qed.

Lemma get_Some_values k v d : pydict.get k d = Some v → v ∈ pydict.values d.
Proof.
  induction d as [|[k' v'] d IH]; simpl; [done|].
  destruct (String.eqb k k'); intros H.
  - injection H as ->. apply list_elem_of_here.
  - apply list_elem_of_further, IH, H.
Qed.

End pydict_facts.

(** ** What saving leaves alone *)

Section save_facts.
Variables (I : Imports) (e : Env).
Implicit Types st : AuthenticationManager.

Lemma save_users_memory st :
  users (_save_users I e st) = users st
  ∧ sessions (_save_users I e st) = sessions st
  ∧ heap (_save_users I e st) = heap st
  ∧ rate_limits (_save_users I e st) = rate_limits st
  ∧ failed_attempts (_save_users I e st) = failed_attempts st.
Proof. unfold _save_users. by destruct (flush_users I e st). Qed.

Lemma save_sessions_memory st :
  users (_save_sessions I e st) = users st
  ∧ sessions (_save_sessions I e st) = sessions st
  ∧ heap (_save_sessions I e st) = heap st
  ∧ rate_limits (_save_sessions I e st) = rate_limits st
  ∧ failed_attempts (_save_sessions I e st) = failed_attempts st.
Proof. unfold _save_sessions. by destruct (flush_sessions I e st). Qed.

Lemma users_save_users st : users (_save_users I e st) = users st.
Proof. apply save_users_memory. Qed.
Lemma sessions_save_users st : sessions (_save_users I e st) = sessions st.
Proof. apply save_users_memory. Qed.
Lemma heap_save_users st : heap (_save_users I e st) = heap st.
Proof. apply save_users_memory. Qed.
Lemma rate_limits_save_users st : rate_limits (_save_users I e st) = rate_limits st.
Proof. apply save_users_memory. Qed.
Lemma failed_attempts_save_users st :
  failed_attempts (_save_users I e st) = failed_attempts st.
Proof. apply save_users_memory. Qed.
Lemma users_save_sessions st : users (_save_sessions I e st) = users st.
Proof. apply save_sessions_memory. Qed.
Lemma sessions_save_sessions st : sessions (_save_sessions I e st) = sessions st.
Proof. apply save_sessions_memory. Qed.
Lemma heap_save_sessions st : heap (_save_sessions I e st) = heap st.
Proof. apply save_sessions_memory. Qed.
Lemma rate_limits_save_sessions st :
  rate_limits (_save_sessions I e st) = rate_limits st.
Proof. apply save_sessions_memory. Qed.
Lemma failed_attempts_save_sessions st :
  failed_attempts (_save_sessions I e st) = failed_attempts st.
Proof. apply save_sessions_memory. Qed.

Lemma session_at_save_users st sid :
  session_at (_save_users I e st) sid = session_at st sid.
Proof. unfold session_at. by rewrite sessions_save_users, heap_save_users. Qed.

Lemma session_at_save_sessions st sid :
  session_at (_save_sessions I e st) sid = session_at st sid.
Proof. unfold session_at. by rewrite sessions_save_sessions, heap_save_sessions. Qed.
End save_facts.

(** Rewrites the fields of a saved manager to those before the save. *)
Ltac unsave :=
  rewrite ?users_save_users, ?sessions_save_users, ?heap_save_users,
    ?rate_limits_save_users, ?failed_attempts_save_users, ?users_save_sessions,
    ?sessions_save_sessions, ?heap_save_sessions, ?rate_limits_save_sessions,
    ?failed_attempts_save_sessions, ?session_at_save_users,
    ?session_at_save_sessions.

(** ** Which fields each method leaves alone *)

Section frames.
Variable I : Imports.
Implicit Types (st : AuthenticationManager) (e : Env).

Local Ltac frame :=
  cbv zeta; intros; simpl; repeat (case_match; simpl);
  repeat (progress (unsave; simpl)); done.

Lemma authenticate_jwt_frame e token st :
  snd (authenticate_jwt I e token st) = emit (CalledJwt token) st.
Proof. unfold authenticate_jwt. frame. Qed.

Lemma authenticate_user_frame e u p st :
  let st' := snd (authenticate_user I e u p st) in
  sessions st' = sessions st ∧ heap st' = heap st ∧ rate_limits st' = rate_limits st.
Proof. unfold authenticate_user, _record_failed_attempt. frame. Qed.

Lemma create_session_frame e user ip ua st :
  let st' := snd (create_session I e user ip ua st) in
  users st' = users st ∧ rate_limits st' = rate_limits st
  ∧ failed_attempts st' = failed_attempts st.
Proof. unfold create_session. frame. Qed.

Lemma validate_session_frame e sid ip st :
  let st' := snd (validate_session I e sid ip st) in
  users st' = users st ∧ sessions st' = sessions st
  ∧ rate_limits st' = rate_limits st ∧ failed_attempts st' = failed_attempts st.
Proof. unfold validate_session. frame. Qed.

Lemma revoke_session_frame e sid st :
  let st' := revoke_session I e sid st in
  users st' = users st ∧ sessions st' = sessions st
  ∧ rate_limits st' = rate_limits st ∧ failed_attempts st' = failed_attempts st.
Proof. unfold revoke_session. frame. Qed.

Lemma check_rate_limit_frame e user endpoint st :
  let st' := snd (check_rate_limit e user endpoint st) in
  users st' = users st ∧ sessions st' = sessions st ∧ heap st' = heap st
  ∧ failed_attempts st' = failed_attempts st ∧ log st' = log st.
Proof. unfold check_rate_limit. frame. Qed.

Lemma create_user_frame e u p ps st :
  let st' := snd (create_user I e u p ps st) in
  sessions st' = sessions st ∧ heap st' = heap st
  ∧ rate_limits st' = rate_limits st ∧ failed_attempts st' = failed_attempts st.
Proof. unfold create_user. frame. Qed.

Lemma delete_user_frame e u st :
  let st' := delete_user I e u st in
  sessions st' = sessions st
  ∧ rate_limits st' = rate_limits st ∧ failed_attempts st' = failed_attempts st.
Proof. unfold delete_user. frame. Qed.

Lemma generate_new_api_key_frame e u st :
  let st' := snd (generate_new_api_key I e u st) in
  sessions st' = sessions st ∧ heap st' = heap st
  ∧ rate_limits st' = rate_limits st ∧ failed_attempts st' = failed_attempts st.
Proof. unfold generate_new_api_key. frame. Qed.

Lemma revoke_api_key_frame e u k st :
  let st' := revoke_api_key I e u k st in
  sessions st' = sessions st ∧ heap st' = heap st
  ∧ rate_limits st' = rate_limits st ∧ failed_attempts st' = failed_attempts st.
Proof. unfold revoke_api_key. frame. Qed.

Lemma cleanup_expired_sessions_frame e st :
  let st' := snd (cleanup_expired_sessions I e st) in
  users st' = users st ∧ heap st' = heap st
  ∧ rate_limits st' = rate_limits st ∧ failed_attempts st' = failed_attempts st.
Proof. unfold cleanup_expired_sessions. frame. Qed.

Lemma resolve_frame e request st :
  let st' := snd (resolve I e request st) in
  users st' = users st ∧ sessions st' = sessions st
  ∧ rate_limits st' = rate_limits st ∧ failed_attempts st' = failed_attempts st.
Proof.
  cbv zeta. unfold resolve. destruct (bearer_token (authorization request)) as [token|].
  - pose proof (authenticate_jwt_frame e token st) as Hj.
    destruct (authenticate_jwt I e token st) as [[user|] st1]; simpl in Hj; subst st1; done.
  - destruct (session_cookie request) as [cookie|]; [|done].
    destruct (String.eqb cookie ""); [done|].
    pose proof (validate_session_frame e cookie
                  (default "unknown"%string (client_host request)) st) as Hv.
    destruct (validate_session I e cookie _ st) as [[l|] st1]; simpl in Hv; [|done].
    by destruct (heap st1 !! l).
Qed.

Lemma wrapper_frame ps e request st :
  let st' := snd (wrapper I ps e request st) in
  users st' = users st ∧ sessions st' = sessions st
  ∧ failed_attempts st' = failed_attempts st.
Proof.
  cbv zeta. unfold wrapper.
  pose proof (resolve_frame e request st) as (Hu & Hs & _ & Hf).
  destruct (resolve I e request st) as [[user|] st1]; simpl in *; [|done].
  destruct (negb _); [done|].
  pose proof (check_rate_limit_frame e user (url_path request) st1) as (Hu' & Hs' & _ & Hf' & _).
  destruct (check_rate_limit e user (url_path request) st1) as [[|] st2]; simpl in *;
    by rewrite Hu', Hs', Hf'.
Qed.
End frames.

(** ** How session objects evolve *)

Lemma deactivate_inactive s : Session.is_active s = false → Session.deactivate s = s.
Proof. destruct s; simpl; by intros ->. Qed.

Lemma deactivate_twice s : Session.deactivate (Session.deactivate s) = Session.deactivate s.
Proof. done. Qed.

Lemma evolves_refl h : evolves h h.
Proof. intros l s H. by left. Qed.

Lemma evolves_trans h1 h2 h3 : evolves h1 h2 → evolves h2 h3 → evolves h1 h3.
Proof.
  intros H12 H23 l s H. destruct (H12 l s H) as [H2|H2];
    destruct (H23 _ _ H2) as [H3|H3]; rewrite ?deactivate_twice in H3; auto.
Qed.

Lemma evolves_app h s : evolves h (h ++ [s]).
Proof.
  intros l s' H. left. rewrite lookup_app_l; [done|]. by eapply lookup_lt_Some.
Qed.

Lemma evolves_deactivate h l s :
  h !! l = Some s → evolves h (<[l := Session.deactivate s]> h).
Proof.
  intros H l' s' H'. destruct (decide (l = l')) as [<-|Hne].
  - right. rewrite list_lookup_insert_eq; [congruence|]. by eapply lookup_lt_Some.
  - left. by rewrite list_lookup_insert_ne.
Qed.

Lemma evolves_revoke_owned u ls h : evolves h (revoke_owned u ls h).
Proof.
  revert h. induction ls as [|l ls IH]; intros h; simpl; [apply evolves_refl|].
  eapply evolves_trans; [|apply IH].
  destruct (h !! l) as [s|] eqn:E; [|apply evolves_refl].
  destruct (String.eqb _ _); [by apply evolves_deactivate|apply evolves_refl].
Qed.

Lemma evolves_inactive h h' l s :
  evolves h h' → h !! l = Some s → Session.is_active s = false → h' !! l = Some s.
Proof.
  intros Hev H Hs. destruct (Hev l s H) as [?|H']; [done|].
  by rewrite (deactivate_inactive s Hs) in H'.
Qed.

Lemma revoke_owned_owned u ls h l s :
  l ∈ ls → h !! l = Some s → Session.user_id s = u →
  revoke_owned u ls h !! l = Some (Session.deactivate s).
Proof.
  revert h s. induction ls as [|l0 ls IH]; intros h s Hin H Hu; [by apply elem_of_nil in Hin|].
  simpl. destruct (decide (l = l0)) as [->|Hne].
  - rewrite H, Hu, String.eqb_refl.
    assert (<[l0 := Session.deactivate s]> h !! l0 = Some (Session.deactivate s)) as H'.
    { apply list_lookup_insert_eq. by eapply lookup_lt_Some. }
    by apply (evolves_inactive _ _ _ _ (evolves_revoke_owned u ls _) H').
  - apply elem_of_cons in Hin as [?|Hin]; [done|].
    set (h' := match h !! l0 with
               | Some session => if String.eqb (Session.user_id session) u
                                 then <[l0 := Session.deactivate session]> h else h
               | None => h end).
    assert (h' !! l = Some s) as H'.
    { unfold h'. destruct (h !! l0); [|done].
      destruct (String.eqb _ _); [|done]. by rewrite list_lookup_insert_ne. }
    by apply IH.
Qed.

Section heap_evolution.
Variable I : Imports.
Implicit Types (st : AuthenticationManager) (e : Env).

Lemma evolves_eq h h' : h' = h → evolves h h'.
Proof. intros ->. apply evolves_refl. Qed.

Lemma create_session_evolves e user ip ua st :
  evolves (heap st) (heap (snd (create_session I e user ip ua st))).
Proof. unfold create_session. simpl. unsave. simpl. apply evolves_app. Qed.

Lemma validate_session_evolves e sid ip st :
  evolves (heap st) (heap (snd (validate_session I e sid ip st))).
Proof.
  unfold validate_session.
  destruct (session_at _ sid) as [[l s]|] eqn:E; [|apply evolves_refl].
  destruct (negb _); [apply evolves_refl|].
  case_bool_decide; simpl.
  - unsave. simpl. apply evolves_deactivate.
    unfold session_at in E. simpl in E.
    destruct (pydict.get sid (sessions st)) as [l'|]; [|done]. simpl in E.
    destruct (heap st !! l') eqn:E'; [|done]. by simplify_eq/=.
  - destruct (_ && _); apply evolves_refl.
Qed.

Lemma session_at_Some st sid l s :
  session_at st sid = Some (l, s) ↔
  pydict.get sid (sessions st) = Some l ∧ heap st !! l = Some s.
Proof.
  unfold session_at. destruct (pydict.get sid (sessions st)) as [l'|]; simpl.
  - destruct (heap st !! l') as [s'|] eqn:E; simpl.
    + split; [intros ?; by simplify_eq|intros [? ?]; by simplify_eq].
    + split; [done|intros [? ?]; by simplify_eq].
  - split; [done|intros [? ?]; done].
Qed.

Lemma revoke_session_evolves e sid st :
  evolves (heap st) (heap (revoke_session I e sid st)).
Proof.
  unfold revoke_session.
  destruct (session_at st sid) as [[l s]|] eqn:E; [|apply evolves_refl].
  unsave. simpl. apply evolves_deactivate. by apply session_at_Some in E as [_ ?].
Qed.

Lemma delete_user_evolves e u st :
  evolves (heap st) (heap (delete_user I e u st)).
Proof.
  unfold delete_user. destruct (pydict.contains u (users st)); [|apply evolves_refl].
  unsave. simpl. unsave. simpl. apply evolves_revoke_owned.
Qed.

Lemma resolve_evolves e request st :
  evolves (heap st) (heap (snd (resolve I e request st))).
Proof.
  unfold resolve. destruct (bearer_token (authorization request)) as [token|].
  - pose proof (authenticate_jwt_frame I e token st) as Hj.
    destruct (authenticate_jwt I e token st) as [[user|] st1]; simpl in Hj; subst st1;
      apply evolves_refl.
  - destruct (session_cookie request) as [cookie|]; [|apply evolves_refl].
    destruct (String.eqb cookie ""); [apply evolves_refl|].
    pose proof (validate_session_evolves e cookie
                  (default "unknown"%string (client_host request)) st) as Hv.
    destruct (validate_session I e cookie _ st) as [[l|] st1]; simpl in Hv; [|done].
    by destruct (heap st1 !! l).
Qed.

Lemma wrapper_evolves ps e request st :
  evolves (heap st) (heap (snd (wrapper I ps e request st))).
Proof.
  unfold wrapper. pose proof (resolve_evolves e request st) as Hr.
  destruct (resolve I e request st) as [[user|] st1]; simpl in *; [|done].
  destruct (negb _); [done|].
  pose proof (check_rate_limit_frame e user (url_path request) st1) as (_ & _ & Hh & _).
  destruct (check_rate_limit e user (url_path request) st1) as [[|] st2]; simpl in *;
    by rewrite Hh.
Qed.

(** No call removes a session object or changes one except by deactivating it. *)
Lemma exec_evolves e o st : evolves (heap st) (heap (exec I e o st)).
Proof.
  destruct o; simpl.
  - apply evolves_eq, authenticate_user_frame.
  - apply evolves_refl.
  - rewrite authenticate_jwt_frame. apply evolves_refl.
  - apply create_session_evolves.
  - apply validate_session_evolves.
  - apply revoke_session_evolves.
  - apply evolves_eq, check_rate_limit_frame.
  - apply evolves_eq, create_user_frame.
  - apply delete_user_evolves.
  - apply evolves_eq, generate_new_api_key_frame.
  - apply evolves_eq, revoke_api_key_frame.
  - apply evolves_eq, cleanup_expired_sessions_frame.
  - apply wrapper_evolves.
Qed.

Lemma run_app tr1 tr2 st : run I (tr1 ++ tr2) st = run I tr2 (run I tr1 st).
Proof. apply fold_left_app. Qed.

Lemma run_evolves tr st : evolves (heap st) (heap (run I tr st)).
Proof.
  revert st. induction tr as [|[e o] tr IH]; intros st; simpl; [apply evolves_refl|].
  eapply evolves_trans; [apply exec_evolves|apply IH].
Qed.

(** [validate_session] only ever hands out an object that is active. *)
Lemma validate_session_Some e sid ip st l :
  fst (validate_session I e sid ip st) = Some l →
  ∃ s, session_at st sid = Some (l, s) ∧ Session.is_active s = true
       ∧ ¬ (Session.expires_at s < utcnow e)
       ∧ (strict_session_ip e = true → Session.ip_address s = ip).
Proof.
  unfold validate_session.
  replace (session_at (emit _ st) sid) with (session_at st sid) by done.
  destruct (session_at st sid) as [[l' s]|]; [|done].
  destruct (Session.is_active s) eqn:Ha; simpl; [|done].
  case_bool_decide; simpl; [done|].
  destruct (strict_session_ip e) eqn:Hs; simpl.
  - destruct (String.eqb _ ip) eqn:Hip; simpl; [|done].
    intros [= ->]. exists s. apply String.eqb_eq in Hip. done.
  - intros [= ->]. exists s. done.
Qed.
End heap_evolution.

(** ** Sessions: validation, deactivation, cascade on user deletion *)

Section sessions.
Variable I : Imports.
Implicit Types (st : AuthenticationManager) (e : Env) (l : loc) (s : Session.t).

Lemma validate_session_inactive e sid ip st l s :
  session_at st sid = Some (l, s) → Session.is_active s = false →
  fst (validate_session I e sid ip st) = None.
Proof.
  intros H Hs. unfold validate_session.
  replace (session_at (emit _ st) sid) with (session_at st sid) by done.
  by rewrite H, Hs.
Qed.

Lemma never_validates_inactive tr st l s e sid ip :
  heap st !! l = Some s → Session.is_active s = false →
  fst (validate_session I e sid ip (run I tr st)) ≠ Some l.
Proof.
  intros H Hs Hv. apply validate_session_Some in Hv as (s' & Hat & Ha & _).
  apply session_at_Some in Hat as [_ Hl].
  rewrite (evolves_inactive _ _ _ _ (run_evolves I tr st) H Hs) in Hl.
  congruence.
Qed.

(** C9.  Once a session record is inactive, no sequence of calls to the
    manager (logins, validations, revocations, user deletions, cleanups,
    wrapped requests) changes it: after every run the same record is still
    there with [is_active] false.  Deactivation is one-way in every
    reachable state. *)
Theorem deactivation_is_final tr st l s :
  heap st !! l = Some s → Session.is_active s = false →
  heap (run I tr st) !! l = Some s
  ∧ ∀ s', heap (run I tr st) !! l = Some s' → Session.is_active s' = false.
Proof.
  intros H Hs.
  pose proof (evolves_inactive _ _ _ _ (run_evolves I tr st) H Hs) as H'.
  split; [done|]. intros s'. rewrite H'. by intros [= <-].
Qed.

(** C4, as the code has it.  [validate_session] returns the session exactly
    when it exists, is active, the current time is not later than
    [expires_at], and, in strict mode, the recorded address is the
    caller's.  A call on an active session made after [expires_at] fails,
    deactivates the record, and from then on no validation, after whatever
    other calls, returns that session. *)
Theorem validate_session_spec e sid ip st :
  (is_Some (fst (validate_session I e sid ip st)) ↔
   ∃ l s, session_at st sid = Some (l, s) ∧ Session.is_active s = true
          ∧ utcnow e ≤ Session.expires_at s
          ∧ (strict_session_ip e = true → Session.ip_address s = ip))
  ∧ (∀ l s, session_at st sid = Some (l, s) → Session.is_active s = true →
            Session.expires_at s < utcnow e →
       let st' := snd (validate_session I e sid ip st) in
       fst (validate_session I e sid ip st) = None
       ∧ session_at st' sid = Some (l, Session.deactivate s)
       ∧ (∀ e' ip', fst (validate_session I e' sid ip' st') = None)
       ∧ (∀ tr e' sid' ip',
            fst (validate_session I e' sid' ip' (run I tr st')) ≠ Some l)).
Proof.
  split.
  - split.
    + intros [l Hl]. apply validate_session_Some in Hl as (s & ? & ? & ? & ?).
      exists l, s. repeat split; auto. lia.
    + intros (l & s & Hat & Ha & Ht & Hip). unfold validate_session.
      replace (session_at (emit _ st) sid) with (session_at st sid) by done.
      rewrite Hat, Ha. simpl. rewrite bool_decide_eq_false_2 by lia.
      destruct (strict_session_ip e); simpl; [|done].
      rewrite Hip by done. by rewrite String.eqb_refl.
  - intros l s Hat Ha Ht. cbv zeta.
    assert (validate_session I e sid ip st =
            (None, _save_sessions I e
                     (with_heap (<[l := Session.deactivate s]> (heap st))
                        (emit (CalledValidateSession sid ip) st)))) as ->.
    { unfold validate_session.
      replace (session_at (emit _ st) sid) with (session_at st sid) by done.
      rewrite Hat, Ha. simpl. by rewrite bool_decide_eq_true_2 by lia. }
    simpl. apply session_at_Some in Hat as [Hg Hl].
    assert (<[l := Session.deactivate s]> (heap st) !! l = Some (Session.deactivate s)) as Hd.
    { apply list_lookup_insert_eq. by eapply lookup_lt_Some. }
    assert (session_at (_save_sessions I e
              (with_heap (<[l := Session.deactivate s]> (heap st))
                 (emit (CalledValidateSession sid ip) st))) sid
            = Some (l, Session.deactivate s)) as Hat'.
    { unsave. apply session_at_Some. done. }
    repeat split; [done| |].
    + intros e' ip'. by eapply validate_session_inactive.
    + intros tr e' sid' ip'.
      eapply never_validates_inactive; [unsave; exact Hd|done].
Qed.

(** C7.  Deleting a user of the store marks every session whose [user_id]
    is that username inactive: right after the deletion, and after any
    further calls, validating such a session fails. *)
Theorem delete_user_revokes_sessions e username st sid l s :
  pydict.contains username (users st) = true →
  session_at st sid = Some (l, s) → Session.user_id s = username →
  let st' := delete_user I e username st in
  session_at st' sid = Some (l, Session.deactivate s)
  ∧ (∀ e' ip, fst (validate_session I e' sid ip st') = None)
  ∧ (∀ tr e' sid' ip,
       fst (validate_session I e' sid' ip (run I tr st')) ≠ Some l).
Proof.
  intros Hin Hat Hu. cbv zeta.
  apply session_at_Some in Hat as [Hg Hl].
  assert (heap (delete_user I e username st) !! l = Some (Session.deactivate s)) as Hd.
  { unfold delete_user. rewrite Hin. unsave. simpl. unsave. simpl.
    apply revoke_owned_owned; [|done|done]. by eapply get_Some_values. }
  assert (session_at (delete_user I e username st) sid
          = Some (l, Session.deactivate s)) as Hat'.
  { apply session_at_Some. split; [|done].
    by rewrite (proj1 (delete_user_frame I e username st)). }
  repeat split; [done| |].
  - intros e' ip. by eapply validate_session_inactive.
  - intros tr e' sid' ip. eapply never_validates_inactive; [exact Hd|done].
Qed.
End sessions.

Lemma deactivation_is_final_witness :
  heap demo.revoked_manager !! 0%nat = Some (Session.deactivate demo.alice_session)
  ∧ heap (run demo.imports demo.busy_run demo.revoked_manager) !! 0%nat
    = Some (Session.deactivate demo.alice_session).
Proof.
  split; [reflexivity|].
  apply (deactivation_is_final demo.imports demo.busy_run demo.revoked_manager 0%nat
           (Session.deactivate demo.alice_session)); reflexivity.
Defined.

(** At the instant [expires_at] the code still accepts the session, and in
    strict mode it rejects an unexpired session presented from another
    address: the specification's equivalence fails both ways. *)
Lemma validates_iff_unexpired_counterexample :
  ¬ validates_iff_unexpired demo.imports (demo.env 1000) "sid-a" "10.0.0.1" demo.manager
  ∧ ¬ validates_iff_unexpired demo.imports (demo.strict_env 500) "sid-a" "10.9.9.9"
        demo.manager.
Proof.
  split.
  - intros [H _]. destruct H as (l & s & Hat & _ & Ht).
    + vm_compute. eauto.
    + apply session_at_Some in Hat as [Hg Hl].
      vm_compute in Hg. injection Hg as <-.
      vm_compute in Hl. injection Hl as <-.
      vm_compute in Ht. discriminate.
  - intros [_ H]. destruct H as [l Hl].
    + exists 0%nat, demo.alice_session. repeat split.
    + vm_compute in Hl. discriminate.
Qed.

Lemma validate_session_spec_witness :
  session_at demo.manager "sid-a" = Some (0%nat, demo.alice_session)
  ∧ fst (validate_session demo.imports (demo.env 1001) "sid-a" "10.0.0.1" demo.manager) = None
  ∧ ∀ e' ip',
      fst (validate_session demo.imports e' "sid-a" ip'
             (snd (validate_session demo.imports (demo.env 1001) "sid-a" "10.0.0.1"
                     demo.manager))) = None.
Proof.
  split; [reflexivity|].
  destruct (proj2 (validate_session_spec demo.imports (demo.env 1001) "sid-a" "10.0.0.1"
                     demo.manager) 0%nat demo.alice_session)
    as (H1 & _ & H3 & _); [reflexivity|reflexivity|reflexivity|].
  split; [exact H1|exact H3].
Defined.

Lemma delete_user_revokes_sessions_witness :
  pydict.contains "alice" (users demo.manager) = true
  ∧ session_at (delete_user demo.imports (demo.env 50) "alice" demo.manager) "sid-a"
    = Some (0%nat, Session.deactivate demo.alice_session)
  ∧ ∀ e' ip,
      fst (validate_session demo.imports e' "sid-a" ip
             (delete_user demo.imports (demo.env 50) "alice" demo.manager)) = None.
Proof.
  split; [reflexivity|].
  destruct (delete_user_revokes_sessions demo.imports (demo.env 50) "alice" demo.manager
              "sid-a" 0%nat demo.alice_session) as (H1 & H2 & _);
    [reflexivity|reflexivity|reflexivity|].
  split; [exact H1|exact H2].
Defined.

(** ** Password login and the failed-attempt counters *)

Section login.
Variable I : Imports.
Implicit Types (st : AuthenticationManager) (e : Env).

Lemma authenticate_user_unknown e username password st :
  unknown_or_inactive username st →
  authenticate_user I e username password st = (None, st).
Proof.
  unfold authenticate_user. intros [->|(user & -> & ->)]; done.
Qed.

Lemma record_failed_attempt_other e u st identifier :
  u ≠ identifier →
  failed_attempts (_record_failed_attempt e u st) !! identifier
  = failed_attempts st !! identifier.
Proof.
  intros Hne. unfold _record_failed_attempt. simpl.
  rewrite !lookup_insert_ne by done.
  destruct (failed_attempts st !! u); [done|]. by rewrite lookup_insert_ne.
Qed.

Lemma authenticate_user_records e username password st :
  failed_attempts (snd (authenticate_user I e username password st))
    ≠ failed_attempts st →
  ∃ user, pydict.get username (users st) = Some user
          ∧ User.is_active user = true
          ∧ pwd_verify I password (User.password_hash user) = false.
Proof.
  unfold authenticate_user.
  destruct (pydict.get username (users st)) as [user|]; [|done].
  destruct (User.is_active user) eqn:Ha; simpl; [|done].
  destruct (pwd_verify I password _) eqn:Hv; simpl.
  - unsave. done.
  - intros _. by exists user.
Qed.

Lemma exec_failed_attempts_at e o st identifier :
  unknown_or_inactive identifier st →
  failed_attempts (exec I e o st) !! identifier = failed_attempts st !! identifier.
Proof.
  intros Hun. destruct o; cbn [exec].
  - destruct (decide (username = identifier)) as [->|Hne].
    + by rewrite authenticate_user_unknown.
    + unfold authenticate_user.
      destruct (pydict.get username (users st)) as [user|]; [|done].
      destruct (negb (User.is_active user)); [done|].
      destruct (negb (pwd_verify I password _)); cbn [snd].
      * by rewrite record_failed_attempt_other.
      * by unsave.
  - done.
  - by rewrite authenticate_jwt_frame.
  - by rewrite (proj2 (proj2 (create_session_frame I e user ip_address user_agent st))).
  - pose proof (validate_session_frame I e session_id ip_address st) as (_ & _ & _ & ->).
    done.
  - pose proof (revoke_session_frame I e session_id st) as (_ & _ & _ & ->). done.
  - pose proof (check_rate_limit_frame e user endpoint st) as (_ & _ & _ & -> & _). done.
  - pose proof (create_user_frame I e username password permissions st)
      as (_ & _ & _ & ->). done.
  - pose proof (delete_user_frame I e username st) as (_ & _ & ->). done.
  - pose proof (generate_new_api_key_frame I e username st) as (_ & _ & _ & ->). done.
  - pose proof (revoke_api_key_frame I e username api_key st) as (_ & _ & _ & ->). done.
  - pose proof (cleanup_expired_sessions_frame I e st) as (_ & _ & _ & ->). done.
  - pose proof (wrapper_frame I permissions e request st) as (_ & _ & ->). done.
Qed.

(** No call makes a user inactive: an inactive user after a call was the
    same inactive user before it. *)
Lemma exec_inactive_users e o st identifier user :
  pydict.get identifier (users (exec I e o st)) = Some user →
  User.is_active user = false →
  ∃ user0, pydict.get identifier (users st) = Some user0
           ∧ User.is_active user0 = false.
Proof.
  intros Hg Ha. destruct o; cbn [exec] in Hg.
  - unfold authenticate_user in Hg.
    destruct (pydict.get username (users st)) as [u0|] eqn:E; [|eauto].
    destruct (User.is_active u0) eqn:Ha0; simpl in Hg; [|eauto].
    destruct (pwd_verify I password _); simpl in Hg; [|eauto].
    revert Hg. unsave. simpl.
    destruct (decide (username = identifier)) as [->|Hne].
    + rewrite get_set_eq. intros [= <-]. simpl in Ha. congruence.
    + rewrite get_set_ne by done. eauto.
  - eauto.
  - rewrite authenticate_jwt_frame in Hg. eauto.
  - rewrite (proj1 (create_session_frame I e user0 ip_address user_agent st)) in Hg. eauto.
  - rewrite (proj1 (validate_session_frame I e session_id ip_address st)) in Hg. eauto.
  - rewrite (proj1 (revoke_session_frame I e session_id st)) in Hg. eauto.
  - rewrite (proj1 (check_rate_limit_frame e user0 endpoint st)) in Hg. eauto.
  - unfold create_user in Hg. destruct (pydict.contains username (users st)); [eauto|].
    revert Hg. simpl. unsave. simpl.
    destruct (decide (username = identifier)) as [->|Hne].
    + rewrite get_set_eq. intros [= <-]. done.
    + rewrite get_set_ne by done. eauto.
  - unfold delete_user in Hg. destruct (pydict.contains username (users st)); [|eauto].
    revert Hg. unsave. simpl. unsave. simpl.
    destruct (decide (username = identifier)) as [->|Hne].
    + by rewrite get_del_eq.
    + rewrite get_del_ne by done. eauto.
  - unfold generate_new_api_key in Hg.
    destruct (pydict.get username (users st)) as [u0|] eqn:E; [|eauto].
    revert Hg. simpl. unsave. simpl.
    destruct (decide (username = identifier)) as [->|Hne].
    + rewrite get_set_eq. intros [= <-]. simpl in Ha. eauto.
    + rewrite get_set_ne by done. eauto.
  - unfold revoke_api_key in Hg.
    destruct (pydict.get username (users st)) as [u0|] eqn:E; [|eauto].
    destruct (existsb _ _); [|eauto].
    revert Hg. unsave. simpl.
    destruct (decide (username = identifier)) as [->|Hne].
    + rewrite get_set_eq. intros [= <-]. simpl in Ha. eauto.
    + rewrite get_set_ne by done. eauto.
  - rewrite (proj1 (cleanup_expired_sessions_frame I e st)) in Hg. eauto.
  - rewrite (proj1 (wrapper_frame I permissions e request st)) in Hg. eauto.
Qed.

Lemma is_blocked_unrecorded identifier st :
  failed_attempts st !! identifier = None → is_blocked identifier st = false.
Proof. unfold is_blocked. by intros ->. Qed.

Lemma run_inactive_unrecorded tr st :
  inactive_unrecorded st → inactive_unrecorded (run I tr st).
Proof.
  revert st. induction tr as [|[e o] tr IH]; intros st Hinv; [done|].
  simpl. apply IH. intros identifier user Hg Ha.
  destruct (exec_inactive_users e o st identifier user Hg Ha) as (user0 & Hg0 & Ha0).
  rewrite exec_failed_attempts_at by (right; eauto). eauto.
Qed.

Lemma run_never_known tr st identifier :
  failed_attempts st !! identifier = None → never_known I identifier tr st →
  failed_attempts (run I tr st) !! identifier = None.
Proof.
  intros H0. induction tr as [|[e o] tr IH] using rev_ind; intros Hnk; [done|].
  rewrite run_app. simpl.
  rewrite exec_failed_attempts_at.
  - apply IH. intros tr1 tr2 ->. apply (Hnk tr1 (tr2 ++ [(e, o)])). by rewrite app_assoc.
  - left. apply (Hnk tr [(e, o)]). done.
Qed.

(** C10.  A password login for a username that is not in the store, or
    that names an inactive user, returns failure and changes nothing: no
    failure is recorded and the hash is not even verified.  A login
    records a failure only when the user exists, is active and the
    password does not verify.  So, from a freshly constructed manager, an
    identity that was never in the store, and an identity whose user is
    inactive, is not reported blocked after any run of calls. *)
Theorem unknown_or_inactive_login_records_nothing :
  (∀ e username password st,
     unknown_or_inactive username st →
     authenticate_user I e username password st = (None, st))
  ∧ (∀ e username password st,
       failed_attempts (snd (authenticate_user I e username password st))
         ≠ failed_attempts st →
       ∃ user, pydict.get username (users st) = Some user
               ∧ User.is_active user = true
               ∧ pwd_verify I password (User.password_hash user) = false)
  ∧ (∀ tr st identifier,
       failed_attempts st = ∅ → never_known I identifier tr st →
       is_blocked identifier (run I tr st) = false)
  ∧ (∀ tr st identifier user,
       failed_attempts st = ∅ →
       pydict.get identifier (users (run I tr st)) = Some user →
       User.is_active user = false →
       is_blocked identifier (run I tr st) = false).
Proof.
  split; [apply authenticate_user_unknown|].
  split; [apply authenticate_user_records|].
  split.
  - intros tr st identifier H0 Hnk. apply is_blocked_unrecorded, run_never_known; [|done].
    by rewrite H0.
  - intros tr st identifier user H0 Hg Ha. apply is_blocked_unrecorded.
    eapply (run_inactive_unrecorded tr st); [|done..].
    intros ? ? _ _. by rewrite H0.
Qed.

(** [authenticate_user] never consults [is_blocked]: for an active user the
    outcome is decided by the password alone, whatever the counters hold,
    and the hash is verified on every such attempt. *)
Lemma authenticate_user_ignores_lockout e username password st user :
  pydict.get username (users st) = Some user → User.is_active user = true →
  pwd_verify I password (User.password_hash user) = true →
  (∃ user', fst (authenticate_user I e username password st) = Some user')
  ∧ CalledVerify password (User.password_hash user)
      ∈ log (snd (authenticate_user I e username password st)).
Proof.
  intros Hg Ha Hv. unfold authenticate_user. rewrite Hg, Ha. simpl. rewrite Hv. simpl.
  split; [eauto|]. unfold _save_users.
  destruct (flush_users _ _ _); simpl; rewrite !elem_of_app, !list_elem_of_singleton; auto.
Qed.

(** After a failure is recorded at [now], the stored list is the earlier
    failures less than an hour old at [now], followed by [now]. *)
Lemma record_failed_attempt_spec e identifier st :
  failed_attempts (_record_failed_attempt e identifier st) !! identifier
  = Some (filter (λ attempt, time_time e - attempt < WINDOW)
                 (default [] (failed_attempts st !! identifier)) ++ [time_time e]).
Proof.
  unfold _record_failed_attempt. simpl. rewrite lookup_insert_eq.
  rewrite lookup_insert_eq. simpl.
  destruct (failed_attempts st !! identifier) eqn:E; simpl.
  - by rewrite E.
  - by rewrite lookup_insert_eq.
Qed.

(** Right after a failure is recorded the answer of [is_blocked] is the
    windowed one: locked exactly when four earlier failures were less than
    an hour old. *)
Lemma is_blocked_after_failure e identifier st :
  is_blocked identifier (_record_failed_attempt e identifier st) = true ↔
  (4 ≤ length (filter (λ attempt, time_time e - attempt < WINDOW)%Z
                      (default [] (failed_attempts st !! identifier))))%nat.
Proof.
  unfold is_blocked. rewrite record_failed_attempt_spec.
  rewrite bool_decide_eq_true, length_app. simpl. lia.
Qed.

(** [is_blocked] itself reads no clock: it counts the stored list as it is,
    however old its entries have become since. *)
Lemma is_blocked_spec identifier st :
  is_blocked identifier st = true ↔
  (5 ≤ length (default [] (failed_attempts st !! identifier)))%nat.
Proof.
  unfold is_blocked. destruct (failed_attempts st !! identifier); simpl.
  - apply bool_decide_eq_true.
  - split; [done|lia].
Qed.
End login.

Lemma unknown_or_inactive_login_records_nothing_witness :
  unknown_or_inactive "mallory" demo.manager
  ∧ authenticate_user demo.imports (demo.env 5) "mallory" "guess" demo.manager
    = (None, demo.manager)
  ∧ never_known demo.imports "mallory" demo.mallory_run demo.manager
  ∧ is_blocked "mallory" (run demo.imports demo.mallory_run demo.manager) = false.
Proof.
  assert (unknown_or_inactive "mallory" demo.manager) as Hun by (left; reflexivity).
  assert (never_known demo.imports "mallory" demo.mallory_run demo.manager) as Hnk.
  { intros tr1 tr2 Heq.
    assert (∃ n, tr1 = take n demo.mallory_run ∧ (n ≤ 6)%nat) as (n & -> & Hn).
    { exists (length tr1). rewrite Heq, take_app_length. split; [done|].
      apply (f_equal length) in Heq. rewrite length_app in Heq. simpl in Heq. lia. }
    do 7 (destruct n as [|n]; [reflexivity|]). lia. }
  destruct (unknown_or_inactive_login_records_nothing demo.imports) as (H1 & _ & H3 & _).
  split; [exact Hun|]. split; [|split; [exact Hnk|]].
  - apply (H1 (demo.env 5) "mallory"%string "guess"%string demo.manager Hun).
  - apply (H3 demo.mallory_run demo.manager "mallory"%string); [reflexivity|exact Hnk].
Defined.

(** C1, evaluated.  After five failed logins for alice within five seconds
    [is_blocked] reports her locked, yet a sixth attempt with the right
    password a minute later verifies the hash and logs her in:
    [authenticate_user] never asks [is_blocked]. *)
Theorem locked_identity_still_logs_in :
  is_blocked "alice" (run demo.imports demo.five_failures demo.manager) = true
  ∧ failed_attempts (run demo.imports demo.five_failures demo.manager) !! "alice"%string
    = Some [100; 101; 102; 103; 104]
  ∧ fst (authenticate_user demo.imports (demo.env 160) "alice" "wonderland"
           (run demo.imports demo.five_failures demo.manager))
    = Some (User.mk "alice" "bcrypt:wonderland" ["pllm_a1"%string] ["chat"%string]
                    (PDatetime 10) (Some (PDatetime 160)) true 2)
  ∧ log (snd (authenticate_user demo.imports (demo.env 160) "alice" "wonderland"
                (run demo.imports demo.five_failures demo.manager)))
    = log (run demo.imports demo.five_failures demo.manager)
      ++ [CalledVerify "wonderland" "bcrypt:wonderland"; Printed "Failed to save users"].
Proof. repeat split; vm_compute; reflexivity. Qed.

(** C6, evaluated.  Five failures recorded at seconds 100 to 104 stay in the
    list, since only the next recorded failure prunes it; [is_blocked] takes
    no clock and counts them, so at second 10000, when none of them lies in
    the trailing hour, alice is still reported locked. *)
Theorem stale_failures_still_block :
  failed_attempts (run demo.imports demo.five_failures demo.manager) !! "alice"%string
  = Some [100; 101; 102; 103; 104]
  ∧ filter (λ attempt, 10000 - attempt < WINDOW) [100; 101; 102; 103; 104] = []
  ∧ is_blocked "alice" (run demo.imports demo.five_failures demo.manager) = true
  ∧ is_blocked "alice"
      (run demo.imports [(demo.env 10000, ValidateSession "sid-a" "10.0.0.1");
                         (demo.env 10000, CleanupExpiredSessions)]
         (run demo.imports demo.five_failures demo.manager)) = true.
Proof. repeat split; vm_compute; reflexivity. Qed.

(** ** The rate limiter *)

Section rate_limiter.
Implicit Types (st : AuthenticationManager) (e : Env) (l : list Z).

Lemma live_all now l : (∀ t, t ∈ l → now - t < WINDOW) → live now l = l.
Proof.
  induction l as [|t l IH]; intros H; [done|]. unfold live in *.
  rewrite filter_cons_True by (apply H; apply list_elem_of_here).
  f_equal. apply IH. intros t' Ht'. apply H. by apply list_elem_of_further.
Qed.

Lemma live_none now l : (∀ t, t ∈ l → WINDOW ≤ now - t) → live now l = [].
Proof.
  induction l as [|t l IH]; intros H; [done|]. unfold live in *.
  rewrite filter_cons_False.
  - apply IH. intros t' Ht'. apply H. by apply list_elem_of_further.
  - pose proof (H t (list_elem_of_here _ _)). lia.
Qed.

Lemma live_idemp now l : live now (live now l) = live now l.
Proof.
  apply live_all. intros t Ht. unfold live in Ht.
  by apply list_elem_of_filter in Ht as [? _].
Qed.

(** One check: what it answers and what it stores. *)
Lemma check_rate_limit_spec e user endpoint st :
  let kept := live (time_time e) (stamps st (rate_key user endpoint)) in
  let r := check_rate_limit e user endpoint st in
  (fst r = true ↔ Z.of_nat (length kept) < User.rate_limit user)
  ∧ stamps (snd r) (rate_key user endpoint)
    = (if fst r then kept ++ [time_time e] else kept)
  ∧ (∀ key, key ≠ rate_key user endpoint →
            rate_limits (snd r) !! key = rate_limits st !! key).
Proof.
  cbv zeta. unfold check_rate_limit, stamps, live.
  fold (rate_key user endpoint). set (key := rate_key user endpoint).
  assert (default [] (match rate_limits st !! key with
                      | Some _ => rate_limits st
                      | None => <[key := []]> (rate_limits st)
                      end !! key)
          = default [] (rate_limits st !! key)) as ->.
  { destruct (rate_limits st !! key) eqn:E; [by rewrite E|by rewrite lookup_insert_eq]. }
  set (kept := filter _ _).
  case_bool_decide as Hlim; simpl.
  - split; [split; [done|lia]|]. split; [by rewrite lookup_insert_eq|].
    intros key' Hne. rewrite lookup_insert_ne by done.
    destruct (rate_limits st !! key); [done|]. by rewrite lookup_insert_ne.
  - split; [split; [lia|done]|]. split; [by rewrite lookup_insert_eq|].
    intros key' Hne. rewrite !lookup_insert_ne by done.
    destruct (rate_limits st !! key); [done|]. by rewrite lookup_insert_ne.
Qed.

(** While the count stays within the limit every check of a burst is
    admitted, and the stored list grows by the times of the burst.  [F]
    holds of the times at which the list will be read. *)
Lemma requests_admitted (F : Z → Prop) user endpoint es st acc :
  (∀ now, F now → live now (stamps st (rate_key user endpoint)) = acc) →
  (∀ e now, e ∈ es → F now → now - time_time e < WINDOW) →
  (∀ e, e ∈ es → F (time_time e)) →
  Z.of_nat (length acc + length es) ≤ User.rate_limit user →
  fst (requests user endpoint es st) = replicate (length es) true
  ∧ ∀ now, F now →
      live now (stamps (snd (requests user endpoint es st)) (rate_key user endpoint))
      = acc ++ map time_time es.
Proof.
  revert st acc. induction es as [|e es IH]; intros st acc Hacc Hwin HF Hlen; simpl.
  - split; [done|]. intros now Hnow. rewrite app_nil_r. by apply Hacc.
  - destruct (check_rate_limit_spec e user endpoint st) as (Hok & Hst & _).
    rewrite (Hacc (time_time e)) in Hok, Hst by (apply HF, list_elem_of_here).
    assert (fst (check_rate_limit e user endpoint st) = true) as Hr.
    { apply Hok. simpl in Hlen. lia. }
    rewrite Hr in Hst |- *.
    destruct (IH (snd (check_rate_limit e user endpoint st)) (acc ++ [time_time e]))
      as [IH1 IH2].
    + intros now Hnow. rewrite Hst. unfold live. rewrite filter_app.
      fold (live now acc). rewrite <- (Hacc now Hnow), live_idemp.
      fold (live now [time_time e]). rewrite (live_all now [time_time e]); [done|].
      intros t ->%list_elem_of_singleton. apply Hwin; [apply list_elem_of_here|done].
    + intros e' now He'. apply Hwin. by apply list_elem_of_further.
    + intros e' He'. apply HF. by apply list_elem_of_further.
    + rewrite length_app. simpl in *. lia.
    + rewrite IH1. split; [done|]. intros now Hnow.
      rewrite IH2 by done. by rewrite <- app_assoc.
Qed.

Lemma requests_app user endpoint es1 es2 st :
  requests user endpoint (es1 ++ es2) st
  = (fst (requests user endpoint es1 st)
       ++ fst (requests user endpoint es2 (snd (requests user endpoint es1 st))),
     snd (requests user endpoint es2 (snd (requests user endpoint es1 st)))).
Proof.
  revert st. induction es1 as [|e es1 IH]; intros st; simpl.
  - by destruct (requests user endpoint es2 st).
  - by rewrite IH.
Qed.

(** C8.  A check keeps the timestamps less than an hour old, succeeds
    exactly when fewer than [rate_limit] of them remain, and appends the
    current time only then.  Hence, for [rate_limit = n] and a burst of
    [n + 1] checks on one endpoint that fit in one hour with nothing
    recorded in the hour before, the first [n] succeed and the last is
    rejected; and a check made once the whole burst is an hour old
    succeeds again (for [n] at least 1). *)
Theorem rate_limit_sliding_window user endpoint :
  (∀ e st,
     let kept := live (time_time e) (stamps st (rate_key user endpoint)) in
     let r := check_rate_limit e user endpoint st in
     (fst r = true ↔ Z.of_nat (length kept) < User.rate_limit user)
     ∧ stamps (snd r) (rate_key user endpoint)
       = (if fst r then kept ++ [time_time e] else kept))
  ∧ (∀ (n : nat) es e_last st,
       User.rate_limit user = Z.of_nat n → length es = n →
       (∀ e t, e ∈ es ++ [e_last] → t ∈ stamps st (rate_key user endpoint) →
               WINDOW ≤ time_time e - t) →
       (∀ e1 e2, e1 ∈ es ++ [e_last] → e2 ∈ es ++ [e_last] →
                 time_time e2 - time_time e1 < WINDOW) →
       fst (requests user endpoint (es ++ [e_last]) st) = replicate n true ++ [false]
       ∧ ∀ e_new,
           (0 < n)%nat →
           (∀ e, e ∈ es ++ [e_last] → WINDOW ≤ time_time e_new - time_time e) →
           fst (check_rate_limit e_new user endpoint
                  (snd (requests user endpoint (es ++ [e_last]) st))) = true).
Proof.
  split.
  { intros e st. cbv zeta.
    destruct (check_rate_limit_spec e user endpoint st) as (H1 & H2 & _). done. }
  intros n es e_last st Hn Hlen Hstale Hwin.
  set (F := λ now, ∃ e, e ∈ es ++ [e_last] ∧ now = time_time e).
  destruct (requests_admitted F user endpoint es st []) as [Hres Hlive].
  { intros now (e & He & ->). apply live_none. intros t Ht. by apply Hstale. }
  { intros e now He (e' & He' & ->). apply Hwin; [|done].
    apply elem_of_app. by left. }
  { intros e He. exists e. split; [|done]. apply elem_of_app. by left. }
  { simpl. lia. }
  simpl in Hlive.
  set (st1 := snd (requests user endpoint es st)) in *.
  assert (live (time_time e_last) (stamps st1 (rate_key user endpoint))
          = map time_time es) as Hkept.
  { apply Hlive. exists e_last. split; [|done].
    apply elem_of_app. right. apply list_elem_of_here. }
  destruct (check_rate_limit_spec e_last user endpoint st1) as (Hok & Hst & _).
  rewrite Hkept, length_map in Hok. rewrite Hkept in Hst.
  assert (fst (check_rate_limit e_last user endpoint st1) = false) as Hrej.
  { destruct (fst (check_rate_limit e_last user endpoint st1)); [|done].
    destruct Hok as [Hok _]. specialize (Hok eq_refl). lia. }
  rewrite Hrej in Hst.
  rewrite requests_app. simpl. fold st1. rewrite Hres, Hrej, Hlen.
  split; [done|].
  intros e_new Hpos Hold.
  destruct (check_rate_limit_spec e_new user endpoint
              (snd (check_rate_limit e_last user endpoint st1))) as (Hok' & _).
  apply Hok'. rewrite Hst, live_none; [simpl; lia|].
  intros t (e & -> & He)%list_elem_of_fmap. apply Hold. apply elem_of_app. by left.
Qed.
End rate_limiter.

Lemma rate_limit_sliding_window_witness :
  User.rate_limit demo.alice = Z.of_nat 2
  ∧ fst (requests demo.alice "/chat" (demo.burst ++ [demo.burst_last]) demo.manager)
    = [true; true; false]
  ∧ fst (check_rate_limit demo.after_burst demo.alice "/chat"
           (snd (requests demo.alice "/chat" (demo.burst ++ [demo.burst_last])
                   demo.manager))) = true.
Proof.
  split; [reflexivity|].
  destruct (proj2 (rate_limit_sliding_window demo.alice "/chat") 2%nat demo.burst
              demo.burst_last demo.manager) as [H1 H2].
  - reflexivity.
  - reflexivity.
  - intros e t _ Ht. vm_compute in Ht. by apply elem_of_nil in Ht.
  - intros e1 e2 H1 H2.
    assert (100 ≤ time_time e1 ≤ 300 ∧ 100 ≤ time_time e2 ≤ 300) as Hb.
    { split.
      - repeat (apply elem_of_cons in H1 as [->|H1]; [simpl; lia|]).
        by apply elem_of_nil in H1.
      - repeat (apply elem_of_cons in H2 as [->|H2]; [simpl; lia|]).
        by apply elem_of_nil in H2. }
    unfold WINDOW. lia.
  - split; [exact H1|]. apply H2; [lia|].
    intros e He.
    repeat (apply elem_of_cons in He as [->|He]; [vm_compute; discriminate|]).
    by apply elem_of_nil in He.
Defined.

(** ** Dispatch precedence *)

Section dispatch.
Variable I : Imports.
Implicit Types (st : AuthenticationManager) (e : Env).

(** C5.  When the request carries a bearer string, the wrapper verifies it
    as a token first and, only if that fails, resolves the same string as
    an API key; [validate_session] is not called and no session is
    touched, whatever the cookie.  If both fail the request is answered
    401.  The outcome does not depend on the cookie, and when the token
    verifies, the user handed to the handler is the token's user. *)
Theorem bearer_takes_precedence permissions e request st token :
  bearer_token (authorization request) = Some token →
  let jwt := authenticate_jwt I e token st in
  let key := authenticate_api_key token (snd jwt) in
  resolve I e request st
    = match fst jwt with Some user => (Some user, snd jwt) | None => key end
  ∧ log (snd (wrapper I permissions e request st))
    = log st ++ CalledJwt token
                :: match fst jwt with Some _ => [] | None => [CalledApiKey token] end
  ∧ heap (snd (wrapper I permissions e request st)) = heap st
  ∧ sessions (snd (wrapper I permissions e request st)) = sessions st
  ∧ (fst jwt = None → fst key = None →
     wrapper I permissions e request st = (HTTP401, snd key))
  ∧ (∀ request', authorization request' = authorization request →
                 url_path request' = url_path request →
                 wrapper I permissions e request' st = wrapper I permissions e request st)
  ∧ (∀ user user', fst jwt = Some user →
                   fst (wrapper I permissions e request st) = Handled user' →
                   user' = user).
Proof.
  intros Hb. cbv zeta.
  assert (resolve I e request st
          = match fst (authenticate_jwt I e token st) with
            | Some user => (Some user, snd (authenticate_jwt I e token st))
            | None => authenticate_api_key token (snd (authenticate_jwt I e token st))
            end) as Hres.
  { unfold resolve. rewrite Hb.
    by destruct (authenticate_jwt I e token st) as [[user|] st1]. }
  split; [exact Hres|].
  split.
  { assert (log (snd (resolve I e request st))
            = log st ++ CalledJwt token
                :: match fst (authenticate_jwt I e token st) with
                   | Some _ => []
                   | None => [CalledApiKey token]
                   end) as Hlog.
    { rewrite Hres, authenticate_jwt_frame.
      destruct (fst (authenticate_jwt I e token st)); simpl; [done|].
      by rewrite <- app_assoc. }
    unfold wrapper.
    destruct (resolve I e request st) as [[user|] st1]; simpl in *; [|done].
    destruct (negb _); [done|].
    pose proof (check_rate_limit_frame e user (url_path request) st1)
      as (_ & _ & _ & _ & Hl).
    destruct (check_rate_limit e user (url_path request) st1) as [[|] st2]; simpl in *;
      congruence. }
  assert (heap (snd (resolve I e request st)) = heap st) as Hheap.
  { rewrite Hres, authenticate_jwt_frame.
    by destruct (fst (authenticate_jwt I e token st)). }
  split.
  { unfold wrapper.
    destruct (resolve I e request st) as [[user|] st1]; simpl in *; [|done].
    destruct (negb _); [done|].
    pose proof (check_rate_limit_frame e user (url_path request) st1) as (_ & _ & Hh & _).
    destruct (check_rate_limit e user (url_path request) st1) as [[|] st2]; simpl in *;
      congruence. }
  split; [apply wrapper_frame|].
  split.
  { intros Hj Hk. unfold wrapper. rewrite Hres, Hj.
    destruct (authenticate_api_key token _) as [r st1]. simpl in Hk. by subst r. }
  split.
  { intros request' Ha Hp. unfold wrapper.
    assert (resolve I e request' st = resolve I e request st) as ->.
    { unfold resolve. by rewrite Ha, Hb. }
    by rewrite Hp. }
  intros user user' Hj. unfold wrapper. rewrite Hres, Hj.
  destruct (negb _); [done|].
  destruct (check_rate_limit e user (url_path request) _) as [[|] st2]; simpl; [|done].
  by intros [= <-].
Qed.
End dispatch.

Lemma bearer_takes_precedence_witness :
  bearer_token (authorization demo.both_credentials) = Some "jwt-alice"%string
  ∧ fst (validate_session demo.imports (demo.env 100) "sid-b" "10.0.0.2" demo.manager)
    = Some 1%nat
  ∧ fst (wrapper demo.imports None (demo.env 100) demo.both_credentials demo.manager)
    = Handled demo.alice
  ∧ log (snd (wrapper demo.imports None (demo.env 100) demo.both_credentials
                demo.manager))
    = [CalledJwt "jwt-alice"]
  ∧ wrapper demo.imports None (demo.env 100) demo.bad_bearer_good_cookie demo.manager
    = (HTTP401,
       snd (authenticate_api_key "nonsense"
              (snd (authenticate_jwt demo.imports (demo.env 100) "nonsense" demo.manager)))).
Proof.
  split; [reflexivity|]. split; [reflexivity|]. split; [reflexivity|].
  split.
  - apply (bearer_takes_precedence demo.imports None (demo.env 100) demo.both_credentials
             demo.manager "jwt-alice"). reflexivity.
  - apply (bearer_takes_precedence demo.imports None (demo.env 100)
             demo.bad_bearer_good_cookie demo.manager "nonsense"); reflexivity.
Defined.

(** ** Persistence failures *)

Section swallowed.
Variables (I : Imports) (e : Env).
Implicit Types st : AuthenticationManager.

Lemma flush_always_fails_iff :
  flush_always_fails I e ↔ json I = None ∨ disk_ok e = false.
Proof.
  unfold flush_always_fails, flush. split.
  - intros H. destruct (H (inr [])) as [x Hx].
    destruct (json I); [|by left]. destruct (disk_ok e); [done|by right].
  - intros [H|H] [x|d]; eauto; rewrite H; eauto.
    destruct (json I); eauto.
Qed.

Hypothesis Hfail : flush_always_fails I e.

Lemma save_users_failed st :
  _save_users I e st = emit (Printed "Failed to save users") st.
Proof.
  unfold _save_users, flush_users.
  by destruct (Hfail (users_data_loop I (pydict.items (users st)) [])) as [x ->].
Qed.

Lemma save_sessions_failed st :
  _save_sessions I e st = emit (Printed "Failed to save sessions") st.
Proof.
  unfold _save_sessions, flush_sessions.
  by destruct (Hfail (inr (sessions_data_loop I (heap st)
                             (pydict.items (sessions st)) []))) as [x ->].
Qed.

(** C2, as the code has it.  When the flush fails, [_save_users] and
    [_save_sessions] catch the exception and print; the mutating method
    keeps its change in memory and returns as on success, and neither
    file is written. *)
Theorem failed_flush_is_swallowed st :
  (∀ username password permissions,
     pydict.contains username (users st) = false →
     let user := User.mk username (pwd_hash I (salt e) password)
                   [_generate_api_key e] permissions
                   (PDatetime (utcnow e)) None true 100 in
     create_user I e username password permissions st
     = (inr user, emit (Printed "Failed to save users")
                    (with_users (pydict.set username user (users st)) st)))
  ∧ (∀ username,
       pydict.contains username (users st) = true →
       delete_user I e username st
       = emit (Printed "Failed to save sessions")
           (with_heap (revoke_owned username (pydict.values (sessions st)) (heap st))
              (emit (Printed "Failed to save users")
                 (with_users (pydict.del username (users st)) st))))
  ∧ (∀ username user,
       pydict.get username (users st) = Some user →
       let user' := User.mk (User.username user) (User.password_hash user)
                      (User.api_keys user ++ [_generate_api_key e])
                      (User.permissions user) (User.created_at user)
                      (User.last_login user) (User.is_active user)
                      (User.rate_limit user) in
       generate_new_api_key I e username st
       = (inr (_generate_api_key e),
          emit (Printed "Failed to save users")
            (with_users (pydict.set username user' (users st)) st)))
  ∧ (∀ username api_key user,
       pydict.get username (users st) = Some user →
       existsb (String.eqb api_key) (User.api_keys user) = true →
       let user' := User.mk (User.username user) (User.password_hash user)
                      (list_remove api_key (User.api_keys user))
                      (User.permissions user) (User.created_at user)
                      (User.last_login user) (User.is_active user)
                      (User.rate_limit user) in
       revoke_api_key I e username api_key st
       = emit (Printed "Failed to save users")
           (with_users (pydict.set username user' (users st)) st))
  ∧ (∀ user ip_address user_agent,
       let session := Session.mk (token_urlsafe e) (User.username user)
                        (utcnow e) (utcnow2 e + SESSION_TTL) ip_address
                        (String.substring 0 200 user_agent) true in
       create_session I e user ip_address user_agent st
       = (length (heap st),
          emit (Printed "Failed to save sessions")
            (with_sessions
               (pydict.set (token_urlsafe e) (length (heap st)) (sessions st))
               (with_heap (heap st ++ [session]) st))))
  ∧ (∀ session_id l session,
       session_at st session_id = Some (l, session) →
       revoke_session I e session_id st
       = emit (Printed "Failed to save sessions")
           (with_heap (<[l := Session.deactivate session]> (heap st)) st))
  ∧ (∀ username password user,
       pydict.get username (users st) = Some user →
       User.is_active user = true →
       pwd_verify I password (User.password_hash user) = true →
       let user' := User.mk (User.username user) (User.password_hash user)
                      (User.api_keys user) (User.permissions user)
                      (User.created_at user) (Some (PDatetime (utcnow e)))
                      (User.is_active user) (User.rate_limit user) in
       authenticate_user I e username password st
       = (Some user',
          emit (Printed "Failed to save users")
            (with_users (pydict.set username user' (users st))
               (emit (CalledVerify password (User.password_hash user)) st))))
  ∧ (∀ o, users_file (exec I e o st) = users_file st
          ∧ sessions_file (exec I e o st) = sessions_file st).
Proof.
  repeat apply conj; cbv zeta.
  - intros username password permissions Hc. unfold create_user.
    by rewrite Hc, save_users_failed.
  - intros username Hc. unfold delete_user.
    by rewrite Hc, save_users_failed, save_sessions_failed.
  - intros username user Hg. unfold generate_new_api_key.
    by rewrite Hg, save_users_failed.
  - intros username api_key user Hg Hk. unfold revoke_api_key.
    by rewrite Hg, Hk, save_users_failed.
  - intros user ip_address user_agent. unfold create_session.
    by rewrite save_sessions_failed.
  - intros session_id l session Hat. unfold revoke_session.
    by rewrite Hat, save_sessions_failed.
  - intros username password user Hg Ha Hv. unfold authenticate_user.
    rewrite Hg, Ha. simpl. rewrite Hv. simpl. by rewrite save_users_failed.
  - intros o. destruct o; cbn [exec];
      unfold authenticate_user, authenticate_api_key, authenticate_jwt,
        create_session, validate_session, revoke_session, check_rate_limit,
        create_user, delete_user, generate_new_api_key, revoke_api_key,
        cleanup_expired_sessions, wrapper, resolve, authenticate_jwt,
        authenticate_api_key, validate_session, check_rate_limit,
        _record_failed_attempt;
      rewrite ?save_users_failed, ?save_sessions_failed;
      repeat (case_match; simplify_eq/=);
      rewrite ?save_users_failed, ?save_sessions_failed; done.
Qed.
End swallowed.

(** With the file as it stands every flush raises [NameError], and with a
    [json] module bound a refusing disk raises [OSError]; either way
    [create_user] returns the new user. *)
Lemma create_user_fails_closed_counterexample :
  ¬ create_user_fails_closed demo.imports (demo.env 5) "carol" "pw" ["chat"%string]
      demo.manager
  ∧ ¬ create_user_fails_closed (demo.imports_with_json []) (demo.full_disk_env 5)
        "carol" "pw" ["chat"%string] demo.manager.
Proof.
  split; intros H; destruct H as [x Hx].
  - intros [x|d]; eexists; reflexivity.
  - vm_compute in Hx. discriminate.
  - intros [x|d]; eexists; reflexivity.
  - vm_compute in Hx. discriminate.
Qed.

Lemma failed_flush_is_swallowed_witness :
  flush_always_fails demo.imports (demo.env 5)
  ∧ create_user demo.imports (demo.env 5) "carol" "pw" ["chat"%string] demo.manager
    = (inr (User.mk "carol" "bcrypt:pw" ["pllm_k3Qx"%string] ["chat"%string]
                    (PDatetime 5) None true 100),
       emit (Printed "Failed to save users")
         (with_users
            (pydict.set "carol"
               (User.mk "carol" "bcrypt:pw" ["pllm_k3Qx"%string] ["chat"%string]
                        (PDatetime 5) None true 100)
               (users demo.manager)) demo.manager))
  ∧ users_file (exec demo.imports (demo.env 5) (DeleteUser "alice") demo.manager) = None.
Proof.
  assert (flush_always_fails demo.imports (demo.env 5)) as Hfail.
  { intros [x|d]; eexists; reflexivity. }
  split; [exact Hfail|].
  destruct (failed_flush_is_swallowed demo.imports (demo.env 5) Hfail demo.manager)
    as (H1 & _ & _ & _ & _ & _ & _ & H8).
  split.
  - apply (H1 "carol"%string "pw"%string ["chat"%string]). reflexivity.
  - apply (H8 (DeleteUser "alice")).
Defined.

(** ** The user store across a save and a load *)

Section round_trip.
Variable I : Imports.
Implicit Types (st : AuthenticationManager) (e : Env) (u : User.t).

Lemma strings_of_strings (l : list string) : strings_of (map JStr l) = Some l.
Proof.
  unfold strings_of. induction l as [|x l IH]; [done|].
  simpl. simpl in IH. by rewrite IH.
Qed.

(** What the constructor call of [_load_users] makes of the dict literal
    of [_save_users]: every [datetime] comes back as a [str]. *)
Lemma construct_user_saved u t j :
  User.created_at u = PDatetime t →
  (User.last_login u = None ∨ ∃ t', User.last_login u = Some (PDatetime t')) →
  user_to_json I u = inr j →
  construct_user j = inr (Loaded (reloaded I u)) ∧ reloaded I u ≠ u.
Proof.
  intros Hc Hl. unfold user_to_json, reloaded. rewrite Hc. simpl.
  destruct Hl as [Hl|[t' Hl]]; rewrite Hl; simpl; intros [= <-]; simpl;
    rewrite !strings_of_strings; (split; [done|]);
    destruct u; simpl in *; subst; intros [=].
Qed.

(** As the file stands, nothing is ever written and nothing is ever read. *)
Lemma users_file_without_json e st :
  source_has_no_json I → users_file (_save_users I e st) = users_file st.
Proof.
  intros Hj. unfold _save_users, flush_users, flush. rewrite Hj.
  by destruct (users_data_loop _ _ _).
Qed.

Lemma load_users_without_json st :
  source_has_no_json I → fst (_load_users I st) = Loaded [].
Proof.
  intros Hj. unfold _load_users, try_load_users. rewrite Hj.
  destruct (users_file st); [|done]. by destruct (fernet_decrypt I _).
Qed.
End round_trip.

(** C3, evaluated.  As the file stands, [_save_users] on the sample store
    writes nothing ([json.dumps] raises [NameError], which is caught), and
    [_load_users] afterwards returns the empty dict.  Had the file imported
    [json], the save would write the file, and the load would hand back
    alice and bob with [created_at] holding the ISO string instead of the
    [datetime]; saving that store again fails on [created_at.isoformat()]. *)
Theorem users_round_trip_evaluated :
  users_file (_save_users demo.imports (demo.env 5) demo.manager) = None
  ∧ fst (_load_users demo.imports (_save_users demo.imports (demo.env 5) demo.manager))
    = Loaded []
  ∧ fst (_load_users (demo.imports_with_json [demo.users_doc])
           (_save_users (demo.imports_with_json [demo.users_doc]) (demo.env 5)
              demo.manager))
    = Loaded [("alice"%string,
               User.mk "alice" "bcrypt:wonderland" ["pllm_a1"%string] ["chat"%string]
                       (PStr "T10") None true 2);
              ("bob"%string,
               User.mk "bob" "bcrypt:builder" ["pllm_b1"%string]
                       ["admin"%string; "chat"%string] (PStr "T20") None true 100)]
  ∧ users demo.manager
    = [("alice"%string,
        User.mk "alice" "bcrypt:wonderland" ["pllm_a1"%string] ["chat"%string]
                (PDatetime 10) None true 2);
       ("bob"%string,
        User.mk "bob" "bcrypt:builder" ["pllm_b1"%string]
                ["admin"%string; "chat"%string] (PDatetime 20) None true 100)]
  ∧ flush_users (demo.imports_with_json [demo.users_doc]) (demo.env 6)
      (with_users
         [("alice"%string,
           User.mk "alice" "bcrypt:wonderland" ["pllm_a1"%string] ["chat"%string]
                   (PStr "T10") None true 2)] demo.manager)
    = inl AttributeError.
Proof. repeat split; vm_compute; reflexivity. Qed.


(** * Further properties *)

(** ** More dictionary facts *)

Section pydict_elements.
Context {V : Type}.
Implicit Types (d : pydict.t V) (k : string) (v : V) (x : string * V).

Lemma get_elem k v d : pydict.get k d = Some v → (k, v) ∈ d.
Proof.
  induction d as [|[k' v'] d IH]; simpl; [done|].
  destruct (String.eqb k k') eqn:E.
  - apply String.eqb_eq in E. intros [= ->]. subst. apply list_elem_of_here.
  - intros H. apply list_elem_of_further. auto.
Qed.

Lemma get_None_keys k d : pydict.get k d = None ↔ k ∉ map fst d.
Proof.
  induction d as [|[k' v'] d IH]; simpl.
  - split; [intros _; apply not_elem_of_nil|done].
  - rewrite not_elem_of_cons. destruct (String.eqb k k') eqn:E.
    + apply String.eqb_eq in E. split; [done|intros [? _]; done].
    + apply String.eqb_neq in E. rewrite IH. tauto.
Qed.

Lemma elem_get k v d : keys_unique d → (k, v) ∈ d → pydict.get k d = Some v.
Proof.
  unfold keys_unique. induction d as [|[k' v'] d IH]; simpl.
  - intros _ H. by apply elem_of_nil in H.
  - rewrite NoDup_cons. intros [Hk Hd] [H|H]%elem_of_cons.
    + injection H as -> ->. by rewrite String.eqb_refl.
    + destruct (String.eqb k k') eqn:E; [|by apply IH].
      apply String.eqb_eq in E. subst k'. exfalso. apply Hk.
      apply list_elem_of_In, in_map_iff. exists (k, v). split; [done|].
      by apply list_elem_of_In.
Qed.

Lemma set_elem k v d x : x ∈ pydict.set k v d → x = (k, v) ∨ x ∈ d.
Proof.
  induction d as [|[k' v'] d IH]; simpl.
  - intros ->%list_elem_of_singleton. by left.
  - destruct (String.eqb k k') eqn:E.
    + apply String.eqb_eq in E. subst k'.
      intros [->|H]%elem_of_cons; [by left|]. right. by apply list_elem_of_further.
    + intros [->|H]%elem_of_cons; [right; apply list_elem_of_here|].
      destruct (IH H) as [?|?]; [by left|]. right. by apply list_elem_of_further.
Qed.

Lemma set_elem_unique k v d x :
  keys_unique d → x ∈ pydict.set k v d → x = (k, v) ∨ (x ∈ d ∧ fst x ≠ k).
Proof.
  unfold keys_unique. induction d as [|[k' v'] d IH]; simpl.
  - intros _ ->%list_elem_of_singleton. by left.
  - rewrite NoDup_cons. intros [Hk Hd]. destruct (String.eqb k k') eqn:E.
    + apply String.eqb_eq in E. subst k'.
      intros [->|H]%elem_of_cons; [by left|]. right.
      split; [by apply list_elem_of_further|].
      intros <-. apply Hk. apply list_elem_of_In, in_map_iff. exists x.
      split; [done|]. by apply list_elem_of_In.
    + apply String.eqb_neq in E.
      intros [->|H]%elem_of_cons.
      * right. split; [apply list_elem_of_here|]. simpl. congruence.
      * destruct (IH Hd H) as [?|[? ?]]; [by left|]. right.
        split; [by apply list_elem_of_further|done].
Qed.

Lemma del_elem k d x : x ∈ pydict.del k d ↔ x ∈ d ∧ fst x ≠ k.
Proof.
  induction d as [|[k' v'] d IH]; simpl.
  - split; [intros H; by apply elem_of_nil in H|intros [H _]; by apply elem_of_nil in H].
  - destruct (String.eqb k k') eqn:E.
    + apply String.eqb_eq in E. subst k'. rewrite IH, elem_of_cons.
      split; [intros [? ?]; auto|]. intros [[->|?] ?]; [done|auto].
    + apply String.eqb_neq in E. rewrite !elem_of_cons, IH.
      split; [intros [->|[? ?]]; [split; [by left|simpl; congruence]|auto]|].
      intros [[->|?] ?]; auto.
Qed.

Lemma set_keys k v d :
  map fst (pydict.set k v d)
  = if pydict.contains k d then map fst d else map fst d ++ [k].
Proof.
  unfold pydict.contains. induction d as [|[k' v'] d IH]; simpl; [done|].
  destruct (String.eqb k k') eqn:E; simpl.
  - apply String.eqb_eq in E. by subst.
  - rewrite IH. by destruct (pydict.get k d).
Qed.

Lemma set_keys_unique k v d : keys_unique d → keys_unique (pydict.set k v d).
Proof.
  unfold keys_unique. rewrite set_keys. unfold pydict.contains.
  destruct (pydict.get k d) eqn:E; [done|].
  intros Hd. apply NoDup_app. split; [done|]. split; [|apply NoDup_singleton].
  intros x Hx ->%list_elem_of_singleton. by apply get_None_keys in E.
Qed.

Lemma del_keys_unique k d : keys_unique d → keys_unique (pydict.del k d).
Proof.
  unfold keys_unique. induction d as [|[k' v'] d IH]; simpl; [done|].
  rewrite NoDup_cons. intros [Hk Hd]. destruct (String.eqb k k'); [auto|].
  simpl. apply NoDup_cons. split; [|auto].
  intros [x [Hx1 Hx2]]%list_elem_of_In%in_map_iff.
  apply list_elem_of_In, del_elem in Hx2 as [Hx2 _]. apply Hk.
  apply list_elem_of_In, in_map_iff. exists x. split; [done|]. by apply list_elem_of_In.
Qed.
End pydict_elements.

(** ** API keys: resolution, issue, revocation *)

Section api_keys.
Variable I : Imports.
Implicit Types (st : AuthenticationManager) (e : Env) (d : pydict.t User.t).

Lemma holds_key_spec k user : holds_key k user = true ↔ k ∈ User.api_keys user.
Proof.
  unfold holds_key. rewrite existsb_exists. split.
  - intros (x & Hx & ->%String.eqb_eq). by apply list_elem_of_In.
  - intros H. exists k. split; [by apply list_elem_of_In|apply String.eqb_refl].
Qed.

Lemma find_values_None (P : User.t → bool) d :
  List.find P (pydict.values d) = None ↔ ∀ x, x ∈ d → P (snd x) = false.
Proof.
  unfold pydict.values. induction d as [|[k v] d IH]; simpl.
  - split; [intros _ x Hx; by apply elem_of_nil in Hx|done].
  - destruct (P v) eqn:E.
    + split; [done|]. intros H. specialize (H (k, v) (list_elem_of_here _ _)).
      simpl in H. congruence.
    + rewrite IH. split.
      * intros H x [->|Hx]%elem_of_cons; [done|auto].
      * intros H x Hx. apply H. by apply list_elem_of_further.
Qed.

Lemma find_values_Some (P : User.t → bool) d user :
  List.find P (pydict.values d) = Some user →
  (∃ name, (name, user) ∈ d) ∧ P user = true.
Proof.
  intros [Hin HP]%find_some. split; [|done].
  apply in_map_iff in Hin as ([name u] & Hu & Hin). simpl in Hu. subst u.
  exists name. by apply list_elem_of_In.
Qed.

(** Replacing the value under [k] by one that [P] and [f] cannot tell from
    the old one does not change what [find] sees through [f]. *)
Lemma find_set_same {A} (P : User.t → bool) (f : User.t → A) k u u' d :
  pydict.get k d = Some u → P u' = P u → f u' = f u →
  f <$> List.find P (pydict.values (pydict.set k u' d))
  = f <$> List.find P (pydict.values d).
Proof.
  intros Hg HP Hf. unfold pydict.values.
  induction d as [|[k0 v0] d IH]; simpl in *; [done|].
  destruct (String.eqb k k0) eqn:E; simpl.
  - injection Hg as ->. rewrite HP. destruct (P u); simpl; [by rewrite Hf|done].
  - destruct (P v0); [done|]. by apply IH.
Qed.

(** Replacing the value under [k] by one that satisfies [P], when nothing
    in the dict did, makes [find] return the new value. *)
Lemma find_set_fresh (P : User.t → bool) k u u' d :
  pydict.get k d = Some u → (∀ x, x ∈ d → P (snd x) = false) → P u' = true →
  List.find P (pydict.values (pydict.set k u' d)) = Some u'.
Proof.
  intros Hg Hno HP. unfold pydict.values.
  induction d as [|[k0 v0] d IH]; simpl in *; [done|].
  destruct (String.eqb k k0) eqn:E; simpl.
  - by rewrite HP.
  - pose proof (Hno (k0, v0) (list_elem_of_here _ _)) as H0. simpl in H0.
    rewrite H0. apply IH; [done|]. intros x Hx. apply Hno.
    by apply list_elem_of_further.
Qed.

Lemma existsb_remove_other k k' l :
  k' ≠ k → existsb (String.eqb k') (list_remove k l) = existsb (String.eqb k') l.
Proof.
  intros Hne. induction l as [|y l IH]; simpl; [done|].
  destruct (String.eqb k y) eqn:E; simpl; [|by rewrite IH].
  apply String.eqb_eq in E. subst y.
  by rewrite (proj2 (String.eqb_neq k' k) Hne).
Qed.

Lemma existsb_remove_unique k l :
  NoDup l → existsb (String.eqb k) (list_remove k l) = false.
Proof.
  induction l as [|y l IH]; simpl; [done|].
  rewrite NoDup_cons. intros [Hy Hl]. destruct (String.eqb k y) eqn:E; simpl.
  - apply String.eqb_eq in E. subst y.
    destruct (existsb (String.eqb k) l) eqn:Ex; [|done].
    apply existsb_exists in Ex as (x & Hx & ->%String.eqb_eq).
    by apply list_elem_of_In in Hx.
  - rewrite E. auto.
Qed.

(** X1.  [authenticate_api_key] hands out a user only if that user is
    stored, holds the key and is active; it fails exactly when no stored
    user both holds the key and is active; and it changes nothing but the
    log. *)
Theorem api_key_resolution api_key st :
  (∀ user, fst (authenticate_api_key api_key st) = Some user →
     (∃ name, (name, user) ∈ users st)
     ∧ api_key ∈ User.api_keys user ∧ User.is_active user = true)
  ∧ (fst (authenticate_api_key api_key st) = None ↔
     ∀ name user, (name, user) ∈ users st → api_key ∈ User.api_keys user →
                  User.is_active user = false)
  ∧ snd (authenticate_api_key api_key st) = emit (CalledApiKey api_key) st.
Proof.
  unfold authenticate_api_key. simpl. fold (holds_key api_key).
  split; [|split; [|done]].
  - intros user [Hin [Hk Ha]%andb_prop]%find_values_Some.
    split; [done|]. split; [|done]. apply holds_key_spec, Hk.
  - change (λ user, existsb (String.eqb api_key) (User.api_keys user)
                    && User.is_active user)
      with (λ user, holds_key api_key user && User.is_active user).
    rewrite find_values_None. split.
    + intros H name user Hin Hk. specialize (H (name, user) Hin). simpl in H.
      apply holds_key_spec in Hk. rewrite Hk in H. done.
    + intros H [name user] Hin. simpl.
      destruct (holds_key api_key user) eqn:Hk; [|done]. simpl.
      apply (H name user Hin). by apply holds_key_spec.
Qed.
End api_keys.

Section api_key_lifecycle.
Variable I : Imports.
Implicit Types (st : AuthenticationManager) (e : Env).

(** X2.  [generate_new_api_key] raises [ValueError] for a name that is not
    in the store and leaves the manager as it was.  For a stored user it
    returns the key ["pllm_"] followed by the draw and appends it to the
    user's keys; if the user is active and nobody held that key before, the
    new key resolves to exactly that user, and every key resolves to a user
    of the same name as before. *)
Theorem generate_new_api_key_resolves e username st :
  (pydict.get username (users st) = None →
   generate_new_api_key I e username st = (inl (ValueError "User not found"), st))
  ∧ (∀ user,
       pydict.get username (users st) = Some user →
       let user' := User.mk (User.username user) (User.password_hash user)
                      (User.api_keys user ++ [_generate_api_key e])
                      (User.permissions user) (User.created_at user)
                      (User.last_login user) (User.is_active user)
                      (User.rate_limit user) in
       let st' := snd (generate_new_api_key I e username st) in
       fst (generate_new_api_key I e username st)
         = inr (String.append "pllm_" (token_urlsafe e))
       ∧ pydict.get username (users st') = Some user'
       ∧ (User.is_active user = true →
          (∀ name other, (name, other) ∈ users st →
                         _generate_api_key e ∉ User.api_keys other) →
          fst (authenticate_api_key (_generate_api_key e) st') = Some user')
       ∧ (∀ api_key,
            api_key ≠ _generate_api_key e →
            User.username <$> fst (authenticate_api_key api_key st')
            = User.username <$> fst (authenticate_api_key api_key st))).
Proof.
  split.
  - intros Hg. unfold generate_new_api_key. by rewrite Hg.
  - intros user Hg. cbv zeta. unfold generate_new_api_key. rewrite Hg. simpl.
    split; [done|]. unsave. simpl. split; [apply get_set_eq|]. split.
    + intros Ha Hfresh. unfold authenticate_api_key. simpl. unsave. simpl.
      apply find_set_fresh with (u := user); [done| |].
      * intros [name other] Hin. simpl.
        destruct (existsb _ (User.api_keys other)) eqn:Ex; [|done].
        exfalso. apply (Hfresh name other Hin).
        apply (holds_key_spec (_generate_api_key e) other), Ex.
      * simpl. rewrite existsb_app. simpl. rewrite String.eqb_refl, Ha.
        by rewrite orb_true_r.
    + intros api_key Hne. unfold authenticate_api_key. simpl. unsave. simpl.
      apply find_set_same with (u := user); [done| |done].
      simpl. rewrite existsb_app. simpl.
      rewrite (proj2 (String.eqb_neq api_key (_generate_api_key e)) Hne).
      by rewrite !orb_false_r.
Qed.

(** X3.  [revoke_api_key] does nothing, not even a save, when the user is
    unknown or does not hold the key.  Otherwise it drops one occurrence of
    the key: every other key resolves to a user of the same name as before,
    and when names are unique in the store, the key was held once, and by
    that user alone, the revoked key resolves to nobody. *)
Theorem revoke_api_key_revokes e username api_key st :
  (pydict.get username (users st) = None → revoke_api_key I e username api_key st = st)
  ∧ (∀ user, pydict.get username (users st) = Some user →
             api_key ∉ User.api_keys user →
             revoke_api_key I e username api_key st = st)
  ∧ (∀ other_key,
       other_key ≠ api_key →
       User.username <$> fst (authenticate_api_key other_key
                                (revoke_api_key I e username api_key st))
       = User.username <$> fst (authenticate_api_key other_key st))
  ∧ (∀ user,
       pydict.get username (users st) = Some user →
       keys_unique (users st) → NoDup (User.api_keys user) →
       (∀ name other, (name, other) ∈ users st →
                      api_key ∈ User.api_keys other → name = username) →
       fst (authenticate_api_key api_key (revoke_api_key I e username api_key st))
       = None).
Proof.
  split; [|split; [|split]].
  - intros Hg. unfold revoke_api_key. by rewrite Hg.
  - intros user Hg Hk. unfold revoke_api_key. rewrite Hg.
    destruct (existsb _ _) eqn:Ex; [|done].
    exfalso. apply Hk. apply (holds_key_spec api_key user), Ex.
  - intros other_key Hne. unfold revoke_api_key.
    destruct (pydict.get username (users st)) as [user|] eqn:Hg; [|done].
    destruct (existsb _ _); [|done].
    unfold authenticate_api_key. simpl. unsave. simpl.
    apply find_set_same with (u := user); [done| |done].
    simpl. by rewrite existsb_remove_other.
  - intros user Hg Hu Hnd Honly. unfold revoke_api_key. rewrite Hg.
    destruct (existsb _ _) eqn:Ex.
    + unfold authenticate_api_key. simpl. unsave. simpl.
      apply find_values_None. intros x Hx.
      apply (set_elem_unique _ _ _ _ Hu) in Hx as [->|[Hx Hne]].
      * simpl. by rewrite existsb_remove_unique.
      * destruct x as [name other]. simpl in *.
        destruct (existsb _ (User.api_keys other)) eqn:Ex'; [|done].
        exfalso. apply Hne. apply (Honly name other Hx).
        apply (holds_key_spec api_key other), Ex'.
    + unfold authenticate_api_key. simpl. apply find_values_None.
      intros [name other] Hx. simpl.
      destruct (existsb _ (User.api_keys other)) eqn:Ex'; [|done].
      assert (name = username) as ->.
      { apply (Honly name other Hx). apply (holds_key_spec api_key other), Ex'. }
      apply elem_get in Hx; [|done]. rewrite Hg in Hx. injection Hx as <-.
      congruence.
Qed.
End api_key_lifecycle.

(** ** Sessions: creation, revocation, validation *)

Lemma length_substring_le n m s : (String.length (String.substring n m s) ≤ m)%nat.
Proof.
  revert n m. induction s as [|c s IH]; intros [|n] [|m]; simpl; try lia.
  - specialize (IH 0%nat m). lia.
  - apply (IH n 0%nat).
  - apply (IH n (S m)).
Qed.

Section session_lifecycle.
Variable I : Imports.
Implicit Types (st : AuthenticationManager) (e : Env) (l : loc) (s : Session.t).

Lemma validate_session_at e sid ip st l s :
  session_at st sid = Some (l, s) → Session.is_active s = true →
  utcnow e ≤ Session.expires_at s →
  (strict_session_ip e = true → Session.ip_address s = ip) →
  validate_session I e sid ip st = (Some l, emit (CalledValidateSession sid ip) st).
Proof.
  intros Hat Ha Ht Hip. unfold validate_session.
  replace (session_at (emit _ st) sid) with (session_at st sid) by done.
  rewrite Hat, Ha. simpl. rewrite bool_decide_eq_false_2 by lia.
  destruct (strict_session_ip e); simpl; [|done].
  rewrite Hip by done. by rewrite String.eqb_refl.
Qed.

Lemma session_at_emit ev st sid : session_at (emit ev st) sid = session_at st sid.
Proof. done. Qed.

(** X4.  [create_session] stores a new object under the drawn id: owned by
    the user, active, bound to the caller's address, expiring 24 hours after
    the clock reading, its user agent cut to at most 200 characters.  The
    session validates from the same address at every time up to
    [expires_at] and at none after, and the sessions stored under other ids
    are as they were. *)
Theorem create_session_validates e user ip_address user_agent st :
  let session := new_session e user ip_address user_agent in
  let l := fst (create_session I e user ip_address user_agent st) in
  let st' := snd (create_session I e user ip_address user_agent st) in
  l = length (heap st)
  ∧ session_at st' (token_urlsafe e) = Some (l, session)
  ∧ Session.expires_at session = utcnow2 e + 86400000000
  ∧ (String.length (Session.user_agent session) ≤ 200)%nat
  ∧ (∀ e', utcnow e' ≤ Session.expires_at session →
           fst (validate_session I e' (token_urlsafe e) ip_address st') = Some l)
  ∧ (∀ e' ip, Session.expires_at session < utcnow e' →
              fst (validate_session I e' (token_urlsafe e) ip st') = None)
  ∧ (∀ sid l' s', sid ≠ token_urlsafe e → session_at st sid = Some (l', s') →
                  session_at st' sid = Some (l', s')).
Proof.
  cbv zeta.
  assert (create_session I e user ip_address user_agent st
          = (length (heap st),
             _save_sessions I e
               (with_sessions
                  (pydict.set (token_urlsafe e) (length (heap st)) (sessions st))
                  (with_heap (heap st ++ [new_session e user ip_address user_agent])
                     st)))) as -> by done.
  cbn [fst snd].
  assert (session_at
            (_save_sessions I e
               (with_sessions
                  (pydict.set (token_urlsafe e) (length (heap st)) (sessions st))
                  (with_heap (heap st ++ [new_session e user ip_address user_agent]) st)))
            (token_urlsafe e)
          = Some (length (heap st), new_session e user ip_address user_agent)) as Hat.
  { unsave. apply session_at_Some. simpl. split; [apply get_set_eq|].
    rewrite lookup_app_r by done. by rewrite Nat.sub_diag. }
  split; [done|]. split; [exact Hat|]. split; [done|].
  split; [apply length_substring_le|]. split; [|split].
  - intros e' Ht. erewrite validate_session_at; [done|exact Hat|done|done|done].
  - intros e' ip Ht. unfold validate_session. rewrite session_at_emit, Hat. simpl.
    by rewrite bool_decide_eq_true_2 by done.
  - intros sid l' s' Hne [Hg Hl]%session_at_Some. unsave. apply session_at_Some. simpl.
    split; [by rewrite get_set_ne|].
    rewrite lookup_app_l; [done|]. by eapply lookup_lt_Some.
Qed.

(** X5.  [revoke_session] on an id that names no session changes nothing,
    not even the file.  On a stored session it deactivates that object, so
    validation fails at every time from every address, and it leaves every
    other session object as it was; revoking again changes no session. *)
Theorem revoke_session_revokes e session_id st :
  (session_at st session_id = None → revoke_session I e session_id st = st)
  ∧ (∀ l s,
       session_at st session_id = Some (l, s) →
       let st' := revoke_session I e session_id st in
       session_at st' session_id = Some (l, Session.deactivate s)
       ∧ (∀ e' ip, fst (validate_session I e' session_id ip st') = None)
       ∧ (∀ l', l' ≠ l → heap st' !! l' = heap st !! l')
       ∧ sessions st' = sessions st
       ∧ (∀ e', heap (revoke_session I e' session_id st') = heap st')).
Proof.
  split.
  - intros Hat. unfold revoke_session. by rewrite Hat.
  - intros l s Hat. cbv zeta. unfold revoke_session at 1 2 3 4. rewrite Hat.
    pose proof Hat as [Hg Hl]%session_at_Some.
    assert (session_at (_save_sessions I e
              (with_heap (<[l := Session.deactivate s]> (heap st)) st)) session_id
            = Some (l, Session.deactivate s)) as Hat'.
    { unsave. apply session_at_Some. simpl. split; [done|].
      apply list_lookup_insert_eq. by eapply lookup_lt_Some. }
    split; [exact Hat'|]. split; [|split; [|split]].
    + intros e' ip. by eapply validate_session_inactive.
    + intros l' Hne. unsave. simpl. by rewrite list_lookup_insert_ne.
    + by unsave.
    + intros e'. unfold revoke_session. rewrite Hat. rewrite Hat'. unsave. simpl. unsave.
      simpl. apply list_insert_id. apply list_lookup_insert_eq. by eapply lookup_lt_Some.
Qed.

(** X6.  [validate_session] changes a session only when it finds it active
    and past [expires_at]: in every other case, success or failure, heap and
    dict are as before.  In particular a request from the wrong address in
    strict mode is refused without revoking the session, which still
    validates from its own address. *)
Theorem validate_session_only_expires e session_id ip st :
  sessions (snd (validate_session I e session_id ip st)) = sessions st
  ∧ (heap (snd (validate_session I e session_id ip st)) = heap st
     ∨ ∃ l s, session_at st session_id = Some (l, s) ∧ Session.is_active s = true
              ∧ Session.expires_at s < utcnow e
              ∧ heap (snd (validate_session I e session_id ip st))
                = <[l := Session.deactivate s]> (heap st))
  ∧ (∀ l s, session_at st session_id = Some (l, s) → Session.is_active s = true →
            utcnow e ≤ Session.expires_at s → strict_session_ip e = true →
            Session.ip_address s ≠ ip →
            fst (validate_session I e session_id ip st) = None
            ∧ fst (validate_session I e session_id (Session.ip_address s)
                     (snd (validate_session I e session_id ip st))) = Some l).
Proof.
  split; [apply validate_session_frame|]. split.
  - unfold validate_session. rewrite session_at_emit.
    destruct (session_at st session_id) as [[l s]|] eqn:Hat; [|by left].
    destruct (Session.is_active s) eqn:Ha; simpl; [|by left].
    case_bool_decide; simpl.
    + right. exists l, s. unsave. done.
    + left. by destruct (_ && _).
  - intros l s Hat Ha Ht Hs Hip.
    assert (validate_session I e session_id ip st
            = (None, emit (CalledValidateSession session_id ip) st)) as ->.
    { unfold validate_session. rewrite session_at_emit, Hat, Ha. simpl.
      rewrite bool_decide_eq_false_2 by lia. rewrite Hs. simpl.
      by rewrite (proj2 (String.eqb_neq _ _) Hip). }
    split; [done|]. simpl. erewrite validate_session_at; [done| |done..].
    by rewrite session_at_emit.
Qed.
End session_lifecycle.

(** ** The sweep of expired sessions *)

Section cleanup.
Variable I : Imports.
Implicit Types (st : AuthenticationManager) (e : Env) (d : pydict.t loc).

Lemma fold_del_elem (ks : list string) d x :
  x ∈ fold_left (λ d k, pydict.del k d) ks d ↔ x ∈ d ∧ fst x ∉ ks.
Proof.
  revert d. induction ks as [|k ks IH]; intros d; simpl.
  - split; [intros H; split; [done|apply not_elem_of_nil]|by intros [? _]].
  - rewrite IH, del_elem, not_elem_of_cons. tauto.
Qed.

Lemma get_fold_del_in (ks : list string) d k :
  k ∈ ks → pydict.get k (fold_left (λ d k, pydict.del k d) ks d) = None.
Proof.
  intros Hk. destruct (pydict.get k _) as [v|] eqn:E; [|done].
  apply get_elem, fold_del_elem in E as [_ E]. done.
Qed.

Lemma get_fold_del_notin (ks : list string) d k :
  k ∉ ks → pydict.get k (fold_left (λ d k, pydict.del k d) ks d) = pydict.get k d.
Proof.
  revert d. induction ks as [|k' ks IH]; intros d Hk; simpl; [done|].
  apply not_elem_of_cons in Hk as [Hne Hk]. rewrite IH by done.
  by apply get_del_ne.
Qed.

Lemma expired_elem now (h : list Session.t) (its : list (string * loc)) sid :
  sid ∈ expired_sessions now h its ↔
  ∃ l s, (sid, l) ∈ its ∧ h !! l = Some s ∧ Session.expires_at s < now.
Proof.
  unfold expired_sessions. rewrite list_elem_of_In, in_map_iff. split.
  - intros ([sid' l] & <- & [Hin Hp]%filter_In). simpl in *.
    destruct (h !! l) as [s|] eqn:E; [|done]. apply bool_decide_eq_true in Hp.
    exists l, s. split; [by apply list_elem_of_In|done].
  - intros (l & s & Hin & Hl & Ht). exists (sid, l). split; [done|].
    apply filter_In. split; [by apply list_elem_of_In|]. simpl. rewrite Hl.
    by apply bool_decide_eq_true.
Qed.

(** X7.  [cleanup_expired_sessions] drops from the dict exactly the ids
    whose session has [expires_at] before the sweep's clock reading and
    touches no session object: afterwards no stored session is expired, an
    expired id names nothing, and (ids being unique) every unexpired session
    is still there.  It returns the number of ids dropped; when that is zero
    the manager is unchanged, and a second sweep at the same or an earlier
    time drops nothing. *)
Theorem cleanup_removes_expired e st :
  let st' := snd (cleanup_expired_sessions I e st) in
  heap st' = heap st
  ∧ (∀ sid l s, session_at st' sid = Some (l, s) → utcnow e ≤ Session.expires_at s)
  ∧ (∀ sid l s, session_at st sid = Some (l, s) → Session.expires_at s < utcnow e →
                session_at st' sid = None)
  ∧ (keys_unique (sessions st) →
     ∀ sid l s, session_at st sid = Some (l, s) → utcnow e ≤ Session.expires_at s →
                session_at st' sid = Some (l, s))
  ∧ (fst (cleanup_expired_sessions I e st) = 0%nat → st' = st)
  ∧ (∀ e', utcnow e' ≤ utcnow e → fst (cleanup_expired_sessions I e' st') = 0%nat).
Proof.
  cbv zeta.
  set (expired := expired_sessions (utcnow e) (heap st) (pydict.items (sessions st))).
  set (d' := fold_left (λ d k, pydict.del k d) expired (sessions st)).
  assert (sessions (snd (cleanup_expired_sessions I e st)) = d') as Hs.
  { unfold cleanup_expired_sessions. simpl. fold expired.
    destruct expired; [done|]. by unsave. }
  assert (heap (snd (cleanup_expired_sessions I e st)) = heap st) as Hh.
  { apply cleanup_expired_sessions_frame. }
  assert (∀ sid l, (sid, l) ∈ d' → ∀ s, heap st !! l = Some s →
                   utcnow e ≤ Session.expires_at s) as Hkept.
  { intros sid l [Hin Hne]%fold_del_elem s Hl.
    destruct (decide (Session.expires_at s < utcnow e)) as [Ht|Ht]; [|lia].
    exfalso. apply Hne. apply expired_elem. by exists l, s. }
  split; [exact Hh|]. split; [|split; [|split; [|split]]].
  - intros sid l s [Hg Hl]%session_at_Some. rewrite Hs in Hg. rewrite Hh in Hl.
    apply get_elem in Hg. eauto.
  - intros sid l s [Hg Hl]%session_at_Some Ht. unfold session_at. rewrite Hs.
    unfold d'. rewrite get_fold_del_in; [done|].
    apply expired_elem. exists l, s. split; [by apply get_elem|done].
  - intros Hu sid l s [Hg Hl]%session_at_Some Ht. apply session_at_Some.
    rewrite Hs, Hh. split; [|done]. unfold d'. rewrite get_fold_del_notin; [done|].
    intros (l' & s' & Hin & Hl' & Ht')%expired_elem.
    apply elem_get in Hin; [|done]. unfold pydict.items in Hin.
    rewrite Hg in Hin. injection Hin as <-. rewrite Hl in Hl'. injection Hl' as <-. lia.
  - unfold cleanup_expired_sessions. simpl. fold expired.
    destruct expired; [|done]. intros _. by destruct st.
  - intros e' Ht. set (st' := snd (cleanup_expired_sessions I e st)) in *.
    clearbody st'. unfold cleanup_expired_sessions. simpl. rewrite Hs, Hh.
    unfold expired_sessions. rewrite length_map.
    assert (List.filter
              (λ it, match heap st !! snd it with
                     | Some session => bool_decide (Session.expires_at session < utcnow e')
                     | None => false
                     end) (pydict.items d') = []) as ->; [|done].
    destruct (List.filter _ _) as [|[sid l] rest] eqn:E; [done|].
    assert (In (sid, l) (List.filter
              (λ it, match heap st !! snd it with
                     | Some session => bool_decide (Session.expires_at session < utcnow e')
                     | None => false
                     end) (pydict.items d'))) as Hin by (rewrite E; by left).
    apply filter_In in Hin as [Hin Hp]. simpl in Hp.
    destruct (heap st !! l) as [s|] eqn:Hl; [|done].
    apply bool_decide_eq_true in Hp.
    pose proof (Hkept sid l (proj2 (list_elem_of_In _ _) Hin) s Hl). lia.
Qed.
End cleanup.


(** ** Invariants of the two stores *)

Section invariants.
Variable I : Imports.
Implicit Types (st : AuthenticationManager) (e : Env).

Lemma users_wf_set st k user :
  users_wf st → User.username user = k →
  users_wf (with_users (pydict.set k user (users st)) st).
Proof.
  intros [Hu Hn] Hk. split; simpl.
  - by apply set_keys_unique.
  - intros name u [[= -> ->]|Hin]%set_elem; [done|auto].
Qed.

Lemma users_wf_eq st st' : users st' = users st → users_wf st → users_wf st'.
Proof. unfold users_wf. by intros ->. Qed.

Lemma users_wf_get st k user :
  users_wf st → pydict.get k (users st) = Some user → User.username user = k.
Proof. intros [_ Hn] Hg. apply Hn. by apply get_elem. Qed.

Lemma exec_users_wf e o st : users_wf st → users_wf (exec I e o st).
Proof.
  intros Hwf. destruct o; cbn [exec].
  - unfold authenticate_user.
    destruct (pydict.get username (users st)) as [user|] eqn:Hg; [|done].
    destruct (negb (User.is_active user)); [done|].
    destruct (negb (pwd_verify I password _)); cbn [snd]; [done|].
    eapply users_wf_eq; [apply users_save_users|].
    apply (users_wf_set (emit _ st)); [done|]. simpl. by eapply users_wf_get.
  - done.
  - by rewrite authenticate_jwt_frame.
  - eapply users_wf_eq; [apply create_session_frame|done].
  - eapply users_wf_eq; [apply validate_session_frame|done].
  - eapply users_wf_eq; [apply revoke_session_frame|done].
  - eapply users_wf_eq; [apply check_rate_limit_frame|done].
  - unfold create_user. destruct (pydict.contains username (users st)); [done|].
    cbn [snd]. eapply users_wf_eq; [apply users_save_users|].
    by apply users_wf_set.
  - unfold delete_user. destruct (pydict.contains username (users st)); [|done].
    destruct Hwf as [Hu Hn]. split.
    + unsave. simpl. unsave. simpl. by apply del_keys_unique.
    + intros name user. unsave. simpl. unsave. simpl. intros [Hin _]%del_elem. auto.
  - unfold generate_new_api_key.
    destruct (pydict.get username (users st)) as [user|] eqn:Hg; [|done].
    cbn [snd]. eapply users_wf_eq; [apply users_save_users|].
    apply users_wf_set; [done|]. simpl. by eapply users_wf_get.
  - unfold revoke_api_key.
    destruct (pydict.get username (users st)) as [user|] eqn:Hg; [|done].
    destruct (existsb _ _); [|done].
    eapply users_wf_eq; [apply users_save_users|].
    apply users_wf_set; [done|]. simpl. by eapply users_wf_get.
  - eapply users_wf_eq; [apply cleanup_expired_sessions_frame|done].
  - eapply users_wf_eq; [apply wrapper_frame|done].
Qed.

Lemma sessions_wf_evolve st st' :
  sessions st' = sessions st → evolves (heap st) (heap st') →
  sessions_wf st → sessions_wf st'.
Proof.
  intros Hs Hev [Hu Hn]. split; rewrite Hs; [done|].
  intros sid l Hin. destruct (Hn sid l Hin) as (s & Hl & Hid).
  destruct (Hev l s Hl) as [H|H]; eauto.
Qed.

Lemma exec_sessions_wf e o st : sessions_wf st → sessions_wf (exec I e o st).
Proof.
  intros Hwf.
  assert (sessions (exec I e o st) = sessions st → sessions_wf (exec I e o st)) as Hsame.
  { intros Hs. eapply sessions_wf_evolve; [done|apply exec_evolves|done]. }
  destruct o; cbn [exec] in *.
  - apply Hsame, authenticate_user_frame.
  - by apply Hsame.
  - apply Hsame. by rewrite authenticate_jwt_frame.
  - destruct Hwf as [Hu Hn]. unfold create_session. cbn [snd]. split.
    + unsave. simpl. by apply set_keys_unique.
    + intros sid l. unsave. simpl. intros [[= -> ->]|Hin]%set_elem.
      * eexists. split; [rewrite lookup_app_r by done; by rewrite Nat.sub_diag|done].
      * destruct (Hn sid l Hin) as (s & Hl & Hid). exists s. split; [|done].
        rewrite lookup_app_l; [done|]. by eapply lookup_lt_Some.
  - apply Hsame, validate_session_frame.
  - apply Hsame, revoke_session_frame.
  - apply Hsame, check_rate_limit_frame.
  - apply Hsame, create_user_frame.
  - apply Hsame, delete_user_frame.
  - apply Hsame, generate_new_api_key_frame.
  - apply Hsame, revoke_api_key_frame.
  - destruct Hwf as [Hu Hn].
    pose proof (cleanup_expired_sessions_frame I e st) as (_ & Hh & _).
    assert (sessions (snd (cleanup_expired_sessions I e st))
            = fold_left (λ d k, pydict.del k d)
                (expired_sessions (utcnow e) (heap st) (pydict.items (sessions st)))
                (sessions st)) as Hs.
    { unfold cleanup_expired_sessions. simpl.
      destruct (expired_sessions _ _ _); [done|]. by unsave. }
    split; rewrite Hs.
    + generalize (expired_sessions (utcnow e) (heap st) (pydict.items (sessions st))).
      intros ks. revert Hu. generalize (sessions st).
      induction ks as [|k ks IH]; intros d Hd; simpl; [done|].
      apply IH. by apply del_keys_unique.
    + intros sid l [Hin _]%fold_del_elem. rewrite Hh. auto.
  - apply Hsame, wrapper_frame.
Qed.

(** X8.  Whatever calls are made, the user store keeps every user under its
    own [username] with no name twice, and the session store keeps every id
    bound to an existing session object whose [session_id] is that id, with
    no id twice. *)
Theorem stores_stay_well_formed tr st :
  users_wf st → sessions_wf st →
  users_wf (run I tr st) ∧ sessions_wf (run I tr st).
Proof.
  revert st. induction tr as [|[e o] tr IH]; intros st Hu Hs; [done|].
  simpl. apply IH; [by apply exec_users_wf|by apply exec_sessions_wf].
Qed.
End invariants.

Section session_objects.
Variable I : Imports.
Variable Q : Session.t → Prop.
Hypothesis Q_deactivate : ∀ s, Q s → Q (Session.deactivate s).
Implicit Types (st : AuthenticationManager) (e : Env).

Lemma Forall_deactivate (h : list Session.t) l s :
  Forall Q h → h !! l = Some s → Forall Q (<[l := Session.deactivate s]> h).
Proof.
  intros Hh Hl. apply Forall_insert; [done|].
  apply Q_deactivate. by eapply Forall_lookup_1.
Qed.

Lemma revoke_owned_Forall u ls (h : list Session.t) :
  Forall Q h → Forall Q (revoke_owned u ls h).
Proof.
  revert h. induction ls as [|l ls IH]; intros h Hh; simpl; [done|].
  apply IH. destruct (h !! l) as [s|] eqn:E; [|done].
  destruct (String.eqb _ _); [|done]. by apply Forall_deactivate.
Qed.

Lemma validate_session_Forall e sid ip st :
  Forall Q (heap st) → Forall Q (heap (snd (validate_session I e sid ip st))).
Proof.
  intros Hh. unfold validate_session.
  destruct (session_at _ sid) as [[l s]|] eqn:E; [|done].
  destruct (negb _); [done|]. case_bool_decide; simpl.
  - unsave. simpl. apply Forall_deactivate; [done|].
    by apply session_at_Some in E as [_ ?].
  - by destruct (_ && _).
Qed.

Lemma exec_heap_Forall e o st :
  (∀ user ip ua, Q (new_session e user ip ua)) →
  Forall Q (heap st) → Forall Q (heap (exec I e o st)).
Proof.
  intros Hnew Hh.
  assert (∀ st', heap st' = heap st → Forall Q (heap st')) as Hsame.
  { by intros st' ->. }
  destruct o; cbn [exec].
  - apply Hsame, authenticate_user_frame.
  - by apply Hsame.
  - apply Hsame. by rewrite authenticate_jwt_frame.
  - unfold create_session. cbn [snd]. unsave. simpl.
    apply Forall_app. split; [done|]. apply Forall_singleton, Hnew.
  - by apply validate_session_Forall.
  - unfold revoke_session. destruct (session_at st session_id) as [[l s]|] eqn:E; [|done].
    unsave. simpl. apply Forall_deactivate; [done|].
    by apply session_at_Some in E as [_ ?].
  - apply Hsame, check_rate_limit_frame.
  - apply Hsame, create_user_frame.
  - unfold delete_user. destruct (pydict.contains username (users st)); [|done].
    unsave. simpl. unsave. simpl. by apply revoke_owned_Forall.
  - apply Hsame, generate_new_api_key_frame.
  - apply Hsame, revoke_api_key_frame.
  - apply Hsame, cleanup_expired_sessions_frame.
  - unfold wrapper.
    assert (Forall Q (heap (snd (resolve I e request st)))) as Hr.
    { unfold resolve. destruct (bearer_token (authorization request)) as [token|].
      - pose proof (authenticate_jwt_frame I e token st) as Hj.
        destruct (authenticate_jwt I e token st) as [[user|] st1]; simpl in Hj; by subst st1.
      - destruct (session_cookie request) as [cookie|]; [|done].
        destruct (String.eqb cookie ""); [done|].
        pose proof (validate_session_Forall e cookie
                      (default "unknown"%string (client_host request)) st Hh) as Hv.
        destruct (validate_session I e cookie _ st) as [[l|] st1]; simpl in Hv; [|done].
        by destruct (heap st1 !! l). }
    destruct (resolve I e request st) as [[user|] st1]; simpl in *; [|done].
    destruct (negb _); [done|].
    pose proof (check_rate_limit_frame e user (url_path request) st1) as (_ & _ & Hh1 & _).
    destruct (check_rate_limit e user (url_path request) st1) as [[|] st2]; simpl in *;
      by rewrite Hh1.
Qed.

Lemma run_heap_Forall tr st :
  Forall (λ eo, ∀ user ip ua, Q (new_session (fst eo) user ip ua)) tr →
  Forall Q (heap st) → Forall Q (heap (run I tr st)).
Proof.
  revert st. induction tr as [|[e o] tr IH]; intros st Htr Hh; [done|].
  apply Forall_cons in Htr as [He Htr]. simpl. apply IH; [done|].
  by apply exec_heap_Forall.
Qed.
End session_objects.

(** X9.  If within each call the clock does not fall back by 24 hours
    between two readings, then whatever calls are made every session object
    keeps [expires_at] after [created_at] and a user agent of at most 200
    characters. *)
Theorem session_objects_stay_ok (I : Imports) tr st :
  Forall (λ eo, clock_sane (fst eo)) tr →
  Forall session_ok (heap st) →
  Forall session_ok (heap (run I tr st)).
Proof.
  intros Htr. apply run_heap_Forall.
  - by intros s [? ?].
  - eapply Forall_impl; [exact Htr|]. intros [e o] Hc user ip ua. simpl in *.
    split; [exact Hc|]. apply length_substring_le.
Qed.

(** ** Listing sessions, and what deleting a user shuts *)

Lemma string_length_append a b :
  String.length (String.append a b) = (String.length a + String.length b)%nat.
Proof. induction a as [|c a IH]; simpl; [done|]. by rewrite IH. Qed.

Section listing.
Variable I : Imports.
Implicit Types (st : AuthenticationManager) (e : Env) (h : list Session.t).

Lemma active_sessions_loop_elem username h ls info :
  info ∈ active_sessions_loop I username h ls ↔
  ∃ l s, l ∈ ls ∧ h !! l = Some s ∧ Session.user_id s = username
         ∧ Session.is_active s = true ∧ info = session_info I s.
Proof.
  induction ls as [|l ls IH]; simpl.
  - split; [intros H; by apply elem_of_nil in H|].
    intros (l & s & H & _). by apply elem_of_nil in H.
  - destruct (h !! l) as [s|] eqn:E.
    + destruct (String.eqb (Session.user_id s) username) eqn:Eu; simpl.
      * apply String.eqb_eq in Eu. destruct (Session.is_active s) eqn:Ea.
        -- rewrite elem_of_cons, IH. split.
           ++ intros [->|(l' & s' & Hin & H)].
              ** exists l, s. split; [apply list_elem_of_here|done].
              ** exists l', s'. split; [by apply list_elem_of_further|done].
           ++ intros (l' & s' & [->|Hin]%elem_of_cons & Hl & Hu & Ha & ->).
              ** left. congruence.
              ** right. by exists l', s'.
        -- rewrite IH. split.
           ++ intros (l' & s' & Hin & H). exists l', s'.
              split; [by apply list_elem_of_further|done].
           ++ intros (l' & s' & [->|Hin]%elem_of_cons & Hl & Hu & Ha & ->).
              ** congruence.
              ** by exists l', s'.
      * apply String.eqb_neq in Eu. rewrite IH. split.
        -- intros (l' & s' & Hin & H). exists l', s'.
           split; [by apply list_elem_of_further|done].
        -- intros (l' & s' & [->|Hin]%elem_of_cons & Hl & Hu & Ha & ->).
           ++ congruence.
           ++ by exists l', s'.
    + rewrite IH. split.
      * intros (l' & s' & Hin & H). exists l', s'.
        split; [by apply list_elem_of_further|done].
      * intros (l' & s' & [->|Hin]%elem_of_cons & Hl & Hu & Ha & ->).
        -- congruence.
        -- by exists l', s'.
Qed.

Lemma revoke_owned_length u ls h : length (revoke_owned u ls h) = length h.
Proof.
  revert h. induction ls as [|l ls IH]; intros h; simpl; [done|].
  rewrite IH. destruct (h !! l); [|done].
  destruct (String.eqb _ _); [apply length_insert|done].
Qed.

(** X10.  [get_active_sessions] lists exactly the sessions of the dict that
    belong to the user and are active, each with its id cut to eight
    characters and three dots: what it shows has at most 11 characters, so
    it is never the id itself when, as for the ids [create_session] draws,
    the id is longer. *)
Theorem get_active_sessions_lists username st :
  (∀ info, info ∈ get_active_sessions I username st ↔
           ∃ l s, l ∈ pydict.values (sessions st) ∧ heap st !! l = Some s
                  ∧ Session.user_id s = username ∧ Session.is_active s = true
                  ∧ info = session_info I s)
  ∧ (∀ info, info ∈ get_active_sessions I username st →
             ∃ shown, pydict.get "session_id" info = Some shown
                      ∧ (String.length shown ≤ 11)%nat)
  ∧ (∀ s, (11 < String.length (Session.session_id s))%nat →
          pydict.get "session_id" (session_info I s) ≠ Some (Session.session_id s)).
Proof.
  assert (∀ s, ∃ shown, pydict.get "session_id" (session_info I s) = Some shown
                        ∧ shown = String.append
                                    (String.substring 0 8 (Session.session_id s)) "..."
                        ∧ (String.length shown ≤ 11)%nat) as Hshown.
  { intros s. eexists. split; [done|]. split; [done|].
    pose proof (length_substring_le 0 8 (Session.session_id s)) as Hle.
    revert Hle. generalize (String.substring 0 8 (Session.session_id s)).
    intros p. rewrite string_length_append. simpl. lia. }
  split; [|split].
  - intros info. apply active_sessions_loop_elem.
  - intros info (l & s & _ & _ & _ & _ & ->)%active_sessions_loop_elem.
    destruct (Hshown s) as (shown & Hg & _ & Hlen). eauto.
  - intros s Hlong. destruct (Hshown s) as (shown & Hg & _ & Hlen).
    rewrite Hg. intros [= ->]. lia.
Qed.
End listing.

Section deletion.
Variable I : Imports.
Implicit Types (st : AuthenticationManager) (e : Env).

Lemma delete_user_users e username st :
  pydict.contains username (users st) = true →
  users (delete_user I e username st) = pydict.del username (users st).
Proof. intros Hc. unfold delete_user. rewrite Hc. unsave. simpl. by unsave. Qed.

Lemma delete_user_heap e username st :
  pydict.contains username (users st) = true →
  heap (delete_user I e username st)
  = revoke_owned username (pydict.values (sessions st)) (heap st).
Proof. intros Hc. unfold delete_user. rewrite Hc. unsave. simpl. by unsave. Qed.

(** X11.  [delete_user] on a name that is not in the store changes
    nothing.  On a stored user it removes the user and leaves every other
    user as stored; afterwards a password login under that name fails
    without a recorded failure, a token whose subject is that name is
    refused, no API key resolves to an entry of that name, and the user has
    no active session left to list. *)
Theorem delete_user_shuts_every_path e username st :
  (pydict.contains username (users st) = false → delete_user I e username st = st)
  ∧ (pydict.contains username (users st) = true →
     let st' := delete_user I e username st in
     pydict.get username (users st') = None
     ∧ (∀ name, name ≠ username →
                pydict.get name (users st') = pydict.get name (users st))
     ∧ (∀ e' password, authenticate_user I e' username password st' = (None, st'))
     ∧ (∀ e' token, jwt_decode I token (utcnow e') = JwtPayload (Some username) →
                    fst (authenticate_jwt I e' token st') = None)
     ∧ (∀ api_key user, fst (authenticate_api_key api_key st') = Some user →
                        ∃ name, name ≠ username ∧ (name, user) ∈ users st)
     ∧ get_active_sessions I username st' = []).
Proof.
  split.
  - intros Hc. unfold delete_user. by rewrite Hc.
  - intros Hc. cbv zeta.
    assert (pydict.get username (users (delete_user I e username st)) = None) as Hgone.
    { rewrite delete_user_users by done. apply get_del_eq. }
    split; [exact Hgone|]. split; [|split; [|split; [|split]]].
    + intros name Hne. rewrite delete_user_users by done. by apply get_del_ne.
    + intros e' password. apply authenticate_user_unknown. by left.
    + intros e' token Hd. unfold authenticate_jwt. rewrite Hd.
      destruct (String.eqb username ""); [done|].
      replace (users (emit (CalledJwt token) (delete_user I e username st)))
        with (users (delete_user I e username st)) by done.
      by rewrite Hgone.
    + intros api_key user [[name Hin] _]%find_values_Some.
      replace (users (emit (CalledApiKey api_key) (delete_user I e username st)))
        with (users (delete_user I e username st)) in Hin by done.
      rewrite delete_user_users in Hin by done.
      apply del_elem in Hin as [Hin Hne]. by exists name.
    + unfold get_active_sessions.
      rewrite (proj1 (delete_user_frame I e username st)), delete_user_heap by done.
      destruct (active_sessions_loop _ _ _ _) as [|info rest] eqn:E; [done|].
      exfalso.
      assert (info ∈ active_sessions_loop I username
                       (revoke_owned username (pydict.values (sessions st)) (heap st))
                       (pydict.values (sessions st))) as Hin
        by (rewrite E; apply list_elem_of_here).
      apply active_sessions_loop_elem in Hin as (l & s' & Hl & Hs' & Hu & Ha & _).
      destruct (heap st !! l) as [s0|] eqn:E0.
      * assert (Session.user_id s0 = username) as Hu0.
        { destruct (evolves_revoke_owned username (pydict.values (sessions st))
                      (heap st) l s0 E0) as [H|H];
            rewrite H in Hs'; injection Hs' as <-; by destruct s0. }
        rewrite (revoke_owned_owned _ _ _ _ _ Hl E0 Hu0) in Hs'.
        injection Hs' as <-. done.
      * apply lookup_lt_Some in Hs'. rewrite revoke_owned_length in Hs'.
        apply lookup_ge_None in E0. lia.
Qed.
End deletion.

(** ** The wrapper: permissions and rate-limit accounting *)

Lemma has_any_spec required held :
  has_any required held = true ↔ ∃ perm, perm ∈ required ∧ perm ∈ held.
Proof.
  unfold has_any. rewrite existsb_exists. split.
  - intros (perm & Hr & (x & Hx & Heq)%existsb_exists).
    apply String.eqb_eq in Heq. subst x.
    exists perm. split; by apply list_elem_of_In.
  - intros (perm & Hr & Hh). exists perm. split; [by apply list_elem_of_In|].
    apply existsb_exists. exists perm.
    split; [by apply list_elem_of_In|apply String.eqb_refl].
Qed.

Section accounting.
Variable I : Imports.
Implicit Types (st : AuthenticationManager) (e : Env).

(** X12.  A request with neither a bearer string nor a session cookie is
    answered 401 and changes nothing.  A request answered 401 or 403
    consumes no rate-limit slot.  A handled request has appended its time to
    the list of its user and path, which held fewer than [rate_limit] recent
    entries; a request answered 429 resolved to a user whose list was full,
    and only pruned it. *)
Theorem wrapper_accounting permissions e request st :
  (bearer_token (authorization request) = None →
   session_cookie request = None ∨ session_cookie request = Some EmptyString →
   wrapper I permissions e request st = (HTTP401, st))
  ∧ (fst (wrapper I permissions e request st) = HTTP401
     ∨ fst (wrapper I permissions e request st) = HTTP403 →
     rate_limits (snd (wrapper I permissions e request st)) = rate_limits st)
  ∧ (∀ user,
       fst (wrapper I permissions e request st) = Handled user →
       let key := rate_key user (url_path request) in
       fst (resolve I e request st) = Some user
       ∧ stamps (snd (wrapper I permissions e request st)) key
         = live (time_time e) (stamps st key) ++ [time_time e]
       ∧ Z.of_nat (length (live (time_time e) (stamps st key))) < User.rate_limit user)
  ∧ (fst (wrapper I permissions e request st) = HTTP429 →
     ∃ user, let key := rate_key user (url_path request) in
       fst (resolve I e request st) = Some user
       ∧ stamps (snd (wrapper I permissions e request st)) key
         = live (time_time e) (stamps st key)
       ∧ User.rate_limit user ≤ Z.of_nat (length (live (time_time e) (stamps st key)))).
Proof.
  split.
  { intros Hb Hc. unfold wrapper, resolve. rewrite Hb.
    by destruct Hc as [->| ->]. }
  unfold wrapper.
  pose proof (resolve_frame I e request st) as (_ & _ & Hrl & _).
  destruct (resolve I e request st) as [[user|] st1]; simpl in Hrl.
  2: { simpl. split; [done|]. split; [done|]. done. }
  destruct (negb _).
  { simpl. split; [done|]. split; [done|]. done. }
  pose proof (check_rate_limit_spec e user (url_path request) st1) as (Hok & Hst & _).
  unfold stamps in Hok, Hst. rewrite Hrl in Hok, Hst.
  fold (stamps st (rate_key user (url_path request))) in Hok, Hst.
  destruct (check_rate_limit e user (url_path request) st1) as [[|] st2]; simpl in *.
  - split; [by intros [?|?]|]. split; [|done].
    intros user' [= <-]. split; [done|]. split; [exact Hst|]. by apply Hok.
  - split; [by intros [?|?]|]. split; [done|]. intros _. exists user.
    split; [done|]. split; [exact Hst|].
    destruct (decide (Z.of_nat (length (live (time_time e)
                (stamps st (rate_key user (url_path request))))) < User.rate_limit user))
      as [Hlt|Hge]; [|lia].
    apply Hok in Hlt. done.
Qed.

(** X13.  The permission check is an any-of test made only when the
    decorator was given a non-empty list: with no list or an empty one no
    request is answered 403; with a list, a handled request's user holds at
    least one of the demanded permissions, and a request answered 403
    resolved to a user that holds none of them. *)
Theorem wrapper_permissions permissions e request st :
  (permissions = None ∨ permissions = Some [] →
   fst (wrapper I permissions e request st) ≠ HTTP403)
  ∧ (∀ demanded user,
       permissions = Some demanded → demanded ≠ [] →
       fst (wrapper I permissions e request st) = Handled user →
       ∃ perm, perm ∈ demanded ∧ perm ∈ User.permissions user)
  ∧ (∀ demanded,
       permissions = Some demanded →
       fst (wrapper I permissions e request st) = HTTP403 →
       ∃ user, fst (resolve I e request st) = Some user
               ∧ ∀ perm, perm ∈ demanded → perm ∉ User.permissions user).
Proof.
  unfold wrapper.
  destruct (resolve I e request st) as [[user|] st1]; cbn [fst snd].
  2: { split; [done|]. split; [done|]. done. }
  split; [|split].
  - intros [->| ->]; cbn [negb];
      by destruct (check_rate_limit e user (url_path request) st1) as [[|] st2].
  - intros demanded user' -> Hne. destruct demanded as [|p ps]; [done|].
    destruct (has_any (p :: ps) (User.permissions user)) eqn:Hp; cbn [negb fst]; [|done].
    destruct (check_rate_limit e user (url_path request) st1) as [[|] st2];
      cbn [fst]; [|done].
    intros [= <-]. by apply has_any_spec.
  - intros demanded ->. destruct demanded as [|p ps]; cbn [negb].
    { by destruct (check_rate_limit e user (url_path request) st1) as [[|] st2]. }
    destruct (has_any (p :: ps) (User.permissions user)) eqn:Hp; cbn [negb fst].
    { by destruct (check_rate_limit e user (url_path request) st1) as [[|] st2]. }
    intros _. exists user. split; [done|]. intros perm Hin Hheld.
    assert (has_any (p :: ps) (User.permissions user) = true) as Hy
      by (apply has_any_spec; eauto).
    congruence.
Qed.
End accounting.

(** ** Rate-limit keys *)

Lemma string_append_assoc a b c :
  String.append (String.append a b) c = String.append a (String.append b c).
Proof.
  induction a as [|x a IH]; [done|].
  change (String x (String.append (String.append a b) c)
          = String x (String.append a (String.append b c))).
  by rewrite IH.
Qed.

Lemma append_cons c a b : String.append (String c a) b = String c (String.append a b).
Proof. done. Qed.

Lemma append_empty b : String.append EmptyString b = b.
Proof. done. Qed.

Lemma append_colon_inj u1 u2 r1 r2 :
  has_colon u1 = false → has_colon u2 = false →
  String.append u1 (String.append ":" r1) = String.append u2 (String.append ":" r2) →
  u1 = u2 ∧ r1 = r2.
Proof.
  revert u2. induction u1 as [|c u1 IH]; intros [|c2 u2];
    rewrite ?append_cons, ?append_empty.
  - intros _ _ [= ->]. done.
  - intros _ H2 [= <- _]. simpl in H2. done.
  - intros H1 _ [= -> _]. simpl in H1. done.
  - simpl. intros [_ H1]%orb_false_elim [_ H2]%orb_false_elim [= -> Heq].
    destruct (IH u2 H1 H2 Heq) as [-> ->]. done.
Qed.

(** X14.  The rate-limit key is the username, a colon and the path.  A
    check touches the list of its own key only.  Keys of users whose names
    have no colon are distinct unless both name and path agree, so such
    users never share a list; a user whose name has a colon shares the list
    of the user named by the part before it, on a longer path. *)
Theorem rate_keys_and_sharing :
  (∀ e user endpoint st key,
     key ≠ rate_key user endpoint →
     rate_limits (snd (check_rate_limit e user endpoint st)) !! key
     = rate_limits st !! key)
  ∧ (∀ user1 user2 endpoint1 endpoint2,
       has_colon (User.username user1) = false →
       has_colon (User.username user2) = false →
       rate_key user1 endpoint1 = rate_key user2 endpoint2 →
       User.username user1 = User.username user2 ∧ endpoint1 = endpoint2)
  ∧ (∀ user1 user2 name rest endpoint,
       User.username user1 = String.append name (String.append ":" rest) →
       User.username user2 = name →
       rate_key user1 endpoint
       = rate_key user2 (String.append rest (String.append ":" endpoint))).
Proof.
  split; [|split].
  - intros e user endpoint st key Hne.
    by apply (check_rate_limit_spec e user endpoint st).
  - intros user1 user2 endpoint1 endpoint2 H1 H2. unfold rate_key.
    by apply append_colon_inj.
  - intros user1 user2 name rest endpoint H1 H2. unfold rate_key.
    rewrite H1, H2. rewrite !string_append_assoc. done.
Qed.

(** ** Creating users and logging in *)

Section accounts.
Variable I : Imports.
Implicit Types (st : AuthenticationManager) (e : Env).

Lemma authenticate_user_ok e username password st user :
  pydict.get username (users st) = Some user → User.is_active user = true →
  pwd_verify I password (User.password_hash user) = true →
  authenticate_user I e username password st
  = (Some (User.mk (User.username user) (User.password_hash user)
                   (User.api_keys user) (User.permissions user)
                   (User.created_at user) (Some (PDatetime (utcnow e)))
                   (User.is_active user) (User.rate_limit user)),
     _save_users I e
       (with_users
          (pydict.set username
             (User.mk (User.username user) (User.password_hash user)
                      (User.api_keys user) (User.permissions user)
                      (User.created_at user) (Some (PDatetime (utcnow e)))
                      (User.is_active user) (User.rate_limit user))
             (users st))
          (emit (CalledVerify password (User.password_hash user)) st))).
Proof.
  intros Hg Ha Hv. unfold authenticate_user. rewrite Hg, Ha. simpl. by rewrite Hv.
Qed.

Lemma authenticate_user_wrong e username password st user :
  pydict.get username (users st) = Some user → User.is_active user = true →
  pwd_verify I password (User.password_hash user) = false →
  authenticate_user I e username password st
  = (None, _record_failed_attempt e username
             (emit (CalledVerify password (User.password_hash user)) st)).
Proof.
  intros Hg Ha Hv. unfold authenticate_user. rewrite Hg, Ha. simpl. by rewrite Hv.
Qed.

(** X15.  [create_user] refuses a name that is already stored with
    [ValueError] and leaves the stored user, and everything else, as it
    was.  For a new name it stores an active user with the hashed password,
    one fresh API key, rate limit 100 and no login yet, and touches no
    other user; that user then logs in with any password the hash verifies
    and gets [last_login] set to the time of the login, while a password
    the hash rejects fails and is recorded as a failed attempt. *)
Theorem create_user_then_login e username password permissions st :
  (pydict.contains username (users st) = true →
   create_user I e username password permissions st
   = (inl (ValueError "User already exists"), st))
  ∧ (pydict.contains username (users st) = false →
     let user := User.mk username (pwd_hash I (salt e) password)
                   [String.append "pllm_" (token_urlsafe e)] permissions
                   (PDatetime (utcnow e)) None true 100 in
     let st' := snd (create_user I e username password permissions st) in
     fst (create_user I e username password permissions st) = inr user
     ∧ pydict.get username (users st') = Some user
     ∧ (∀ name, name ≠ username →
                pydict.get name (users st') = pydict.get name (users st))
     ∧ (∀ e' attempt,
          pwd_verify I attempt (pwd_hash I (salt e) password) = true →
          ∃ logged, fst (authenticate_user I e' username attempt st') = Some logged
                    ∧ User.last_login logged = Some (PDatetime (utcnow e'))
                    ∧ User.username logged = username)
     ∧ (∀ e' attempt,
          pwd_verify I attempt (pwd_hash I (salt e) password) = false →
          fst (authenticate_user I e' username attempt st') = None
          ∧ failed_attempts (snd (authenticate_user I e' username attempt st'))
              !! username
            = Some (live (time_time e')
                      (default [] (failed_attempts st !! username))
                    ++ [time_time e']))).
Proof.
  split.
  - intros Hc. unfold create_user. by rewrite Hc.
  - intros Hc. cbv zeta. unfold create_user. rewrite Hc. cbn [fst snd].
    set (user := User.mk username _ _ _ _ _ _ _).
    assert (pydict.get username
              (users (_save_users I e
                        (with_users (pydict.set username user (users st)) st)))
            = Some user) as Hg.
    { unsave. simpl. apply get_set_eq. }
    split; [done|]. split; [exact Hg|]. split; [|split].
    + intros name Hne. unsave. simpl. by apply get_set_ne.
    + intros e' attempt Hv.
      erewrite authenticate_user_ok; [|exact Hg|done|exact Hv]. eauto.
    + intros e' attempt Hv.
      erewrite authenticate_user_wrong; [|exact Hg|done|exact Hv].
      split; [done|]. cbn [snd]. rewrite record_failed_attempt_spec.
      simpl. by unsave.
Qed.

(** X16.  A successful login records nothing and clears nothing: the
    failed-attempt lists, and so what [is_blocked] answers, are as before.
    A failed login for an active user changes the list of that username
    only, and what it leaves there are timestamps less than an hour old. *)
Theorem login_and_failed_attempts e username password st user :
  pydict.get username (users st) = Some user → User.is_active user = true →
  let st' := snd (authenticate_user I e username password st) in
  (pwd_verify I password (User.password_hash user) = true →
   failed_attempts st' = failed_attempts st
   ∧ ∀ identifier, is_blocked identifier st' = is_blocked identifier st)
  ∧ (pwd_verify I password (User.password_hash user) = false →
     (∀ identifier, identifier ≠ username →
                    failed_attempts st' !! identifier = failed_attempts st !! identifier)
     ∧ ∃ attempts, failed_attempts st' !! username = Some attempts
                   ∧ time_time e ∈ attempts
                   ∧ ∀ t, t ∈ attempts → time_time e - t < 3600).
Proof.
  intros Hg Ha. cbv zeta. split.
  - intros Hv. rewrite (authenticate_user_ok e username password st user Hg Ha Hv).
    cbn [snd].
    assert (failed_attempts
              (_save_users I e
                 (with_users
                    (pydict.set username
                       (User.mk (User.username user) (User.password_hash user)
                                (User.api_keys user) (User.permissions user)
                                (User.created_at user) (Some (PDatetime (utcnow e)))
                                (User.is_active user) (User.rate_limit user))
                       (users st))
                    (emit (CalledVerify password (User.password_hash user)) st)))
            = failed_attempts st) as Hf by (by unsave).
    split; [exact Hf|]. intros identifier. unfold is_blocked. by rewrite Hf.
  - intros Hv. rewrite (authenticate_user_wrong e username password st user Hg Ha Hv).
    cbn [snd]. split.
    + intros identifier Hne. by rewrite record_failed_attempt_other.
    + eexists. split; [apply record_failed_attempt_spec|]. split.
      * apply elem_of_app. right. apply list_elem_of_here.
      * intros t [[Ht _]%list_elem_of_filter| ->%list_elem_of_singleton]%elem_of_app.
        -- exact Ht.
        -- lia.
Qed.
End accounts.

(** ** Introspection and bootstrap *)

Section introspection_facts.
Variable I : Imports.
Implicit Types (st : AuthenticationManager) (e : Env).

(** X17.  [get_user_info] returns [None] for an unknown name, and raises
    [AttributeError] for a user whose [created_at] holds a string.  What it
    returns does not depend on the password hash or on the API keys beyond
    their number: two stores whose users under the name agree on every
    other field give the same answer. *)
Theorem get_user_info_sanitized username st :
  (pydict.get username (users st) = None → get_user_info I username st = inr None)
  ∧ (∀ user s, pydict.get username (users st) = Some user →
               User.created_at user = PStr s →
               get_user_info I username st = inl AttributeError)
  ∧ (∀ st' user user',
       pydict.get username (users st) = Some user →
       pydict.get username (users st') = Some user' →
       User.username user' = User.username user →
       User.permissions user' = User.permissions user →
       User.created_at user' = User.created_at user →
       User.last_login user' = User.last_login user →
       User.is_active user' = User.is_active user →
       User.rate_limit user' = User.rate_limit user →
       length (User.api_keys user') = length (User.api_keys user) →
       get_user_info I username st' = get_user_info I username st).
Proof.
  unfold get_user_info. split; [by intros ->|]. split.
  - intros user s -> Hc. by rewrite Hc.
  - intros st' user user' -> -> Hn Hp Hc Hl Ha Hr Hk.
    unfold last_login_json. by rewrite Hn, Hp, Hc, Hl, Ha, Hr, Hk.
Qed.

(** X18.  Called on an empty store, as [__init__] does, and with a hash
    that verifies the password it was made from, [_create_default_admin]
    leaves exactly one user, [admin], active, with the permissions admin,
    chat and models and rate limit 1000.  Its password is the value of
    [ADMIN_PASSWORD] when set and the random draw otherwise; that password
    logs in, the generated key resolves to the admin, and the last line
    printed carries the password. *)
Theorem default_admin_bootstrap e admin_password_env password_draw st :
  users st = [] →
  pwd_verify I (default password_draw admin_password_env)
             (pwd_hash I (salt e) (default password_draw admin_password_env)) = true →
  let password := default password_draw admin_password_env in
  let admin := User.mk "admin" (pwd_hash I (salt e) password)
                 [String.append "pllm_" (token_urlsafe e)]
                 ["admin"%string; "chat"%string; "models"%string]
                 (PDatetime (utcnow e)) None true 1000 in
  let st' := _create_default_admin I e admin_password_env password_draw st in
  users st' = [("admin"%string, admin)]
  ∧ (∀ e', ∃ logged, fst (authenticate_user I e' "admin" password st') = Some logged
                     ∧ User.permissions logged = User.permissions admin)
  ∧ fst (authenticate_api_key (String.append "pllm_" (token_urlsafe e)) st')
    = Some admin
  ∧ (∀ demanded perm, perm ∈ demanded → perm ∈ User.permissions admin →
                      has_any demanded (User.permissions admin) = true)
  ∧ last (log st')
    = Some (Printed (String.append
                       "🔑 Default admin created - Username: admin, Password: "
                       password)).
Proof.
  intros Hempty Hv. cbv zeta.
  set (password := default password_draw admin_password_env) in *.
  set (admin := User.mk "admin" _ _ _ _ _ _ _).
  assert (users (_create_default_admin I e admin_password_env password_draw st)
          = [("admin"%string, admin)]) as Hu.
  { unfold _create_default_admin. simpl. unsave. simpl. by rewrite Hempty. }
  split; [exact Hu|]. split; [|split; [|split]].
  - intros e'. erewrite authenticate_user_ok; [eauto| |done|exact Hv].
    by rewrite Hu.
  - unfold authenticate_api_key. simpl. unsave. simpl. rewrite Hempty. simpl.
    by rewrite String.eqb_refl.
  - intros demanded perm Hd Hp. apply has_any_spec. by exists perm.
  - unfold _create_default_admin. simpl. apply last_snoc.
Qed.
End introspection_facts.

(** ** Requests without a bearer string *)

Section session_path.
Variable I : Imports.
Implicit Types (st : AuthenticationManager) (e : Env).

(** X19.  An [Authorization] header that does not start with ["Bearer "] is
    ignored: the request is treated exactly as if it had no such header.
    Such a request with a cookie naming a valid session resolves to the user
    now stored under the session's [user_id], or to nobody if none is. *)
Theorem non_bearer_header_is_ignored permissions e request st :
  (bearer_token (authorization request) = None ↔
   authorization request = None
   ∨ ∃ h, authorization request = Some h ∧ String.prefix "Bearer " h = false)
  ∧ (bearer_token (authorization request) = None →
     wrapper I permissions e request st
     = wrapper I permissions e
         {| authorization := None; session_cookie := session_cookie request;
            client_host := client_host request; url_path := url_path request |} st)
  ∧ (∀ cookie l s,
       bearer_token (authorization request) = None →
       session_cookie request = Some cookie → cookie ≠ EmptyString →
       session_at st cookie = Some (l, s) → Session.is_active s = true →
       utcnow e ≤ Session.expires_at s →
       (strict_session_ip e = true →
        Session.ip_address s = default "unknown"%string (client_host request)) →
       fst (resolve I e request st) = pydict.get (Session.user_id s) (users st)).
Proof.
  split; [|split].
  - unfold bearer_token. destruct (authorization request) as [h|].
    + destruct (String.prefix "Bearer " h) eqn:Hp.
      * destruct (String.eqb h "") eqn:Hh.
        -- apply String.eqb_eq in Hh. subst h. done.
        -- simpl. split; [done|]. intros [?|(h' & [= <-] & ?)]; congruence.
      * rewrite andb_false_r. split; [|done]. intros _. right. eauto.
    + split; [by left|done].
  - intros Hb. unfold wrapper, resolve. simpl. by rewrite Hb.
  - intros cookie l s Hb Hc Hne Hat Ha Ht Hip. unfold resolve. rewrite Hb, Hc.
    rewrite (proj2 (String.eqb_neq _ _) Hne).
    rewrite (validate_session_at I e cookie _ st l s Hat Ha Ht Hip). simpl.
    by apply session_at_Some in Hat as [_ ->].
Qed.
End session_path.


(** ** The further properties at sample values *)

(** Splits a membership in a literal list into its cases. *)
Ltac list_cases H :=
  repeat (apply elem_of_cons in H as [H|H]; [simplify_eq|]);
  [..|by apply elem_of_nil in H].

Lemma demo_users_wf : users_wf demo.manager.
Proof.
  split.
  - unfold keys_unique. simpl. apply NoDup_cons. split.
    + intros H%list_elem_of_singleton. discriminate.
    + apply NoDup_singleton.
  - intros name user Hin. simpl in Hin. list_cases Hin; done.
Qed.

Lemma demo_sessions_wf : sessions_wf demo.manager.
Proof.
  split.
  - unfold keys_unique. simpl. apply NoDup_cons. split.
    + intros H%list_elem_of_singleton. discriminate.
    + apply NoDup_singleton.
  - intros sid l Hin. simpl in Hin. list_cases Hin; by eexists.
Qed.

Lemma api_key_resolution_witness :
  fst (authenticate_api_key "pllm_b1" demo.manager) = Some demo.bob
  ∧ "pllm_b1"%string ∈ User.api_keys demo.bob
  ∧ User.is_active demo.bob = true.
Proof.
  split; [reflexivity|].
  destruct (api_key_resolution "pllm_b1" demo.manager) as (H1 & _ & _).
  destruct (H1 demo.bob) as (_ & Hk & Ha); [reflexivity|]. split; [exact Hk|exact Ha].
Defined.

Lemma generate_new_api_key_resolves_witness :
  pydict.get "alice" (users demo.manager) = Some demo.alice
  ∧ fst (authenticate_api_key "pllm_k3Qx"
           (snd (generate_new_api_key demo.imports (demo.env 7) "alice" demo.manager)))
    = Some (User.mk "alice" "bcrypt:wonderland" ["pllm_a1"%string; "pllm_k3Qx"%string]
                    ["chat"%string] (PDatetime 10) None true 2).
Proof.
  split; [reflexivity|].
  destruct (proj2 (generate_new_api_key_resolves demo.imports (demo.env 7) "alice"
                     demo.manager) demo.alice) as (_ & _ & H3 & _); [reflexivity|].
  apply H3; [reflexivity|].
  intros name other Hin Hk. simpl in Hin.
  list_cases Hin; apply list_elem_of_singleton in Hk; discriminate.
Defined.

Lemma revoke_api_key_revokes_witness :
  pydict.get "alice" (users demo.manager) = Some demo.alice
  ∧ fst (authenticate_api_key "pllm_a1" demo.manager) = Some demo.alice
  ∧ fst (authenticate_api_key "pllm_a1"
           (revoke_api_key demo.imports (demo.env 7) "alice" "pllm_a1" demo.manager))
    = None.
Proof.
  split; [reflexivity|]. split; [reflexivity|].
  destruct (revoke_api_key_revokes demo.imports (demo.env 7) "alice" "pllm_a1"
              demo.manager) as (_ & _ & _ & H4).
  apply (H4 demo.alice); [reflexivity|apply demo_users_wf|apply NoDup_singleton|].
  intros name other Hin Hk. simpl in Hin.
  list_cases Hin; [done|]. apply list_elem_of_singleton in Hk. discriminate.
Defined.

Lemma create_session_validates_witness :
  fst (validate_session demo.imports (demo.env 5000) "k3Qx" "10.0.0.7"
         (snd (create_session demo.imports (demo.env 40) demo.alice "10.0.0.7" "curl"
                 demo.manager)))
  = Some 2%nat.
Proof.
  destruct (create_session_validates demo.imports (demo.env 40) demo.alice "10.0.0.7"
              "curl" demo.manager) as (_ & _ & _ & _ & H5 & _).
  apply (H5 (demo.env 5000)). vm_compute. discriminate.
Defined.

Lemma revoke_session_revokes_witness :
  session_at demo.manager "sid-a" = Some (0%nat, demo.alice_session)
  ∧ ∀ e' ip,
      fst (validate_session demo.imports e' "sid-a" ip
             (revoke_session demo.imports (demo.env 9) "sid-a" demo.manager)) = None.
Proof.
  split; [reflexivity|].
  destruct (proj2 (revoke_session_revokes demo.imports (demo.env 9) "sid-a" demo.manager)
              0%nat demo.alice_session) as (_ & H2 & _); [reflexivity|exact H2].
Defined.

Lemma validate_session_only_expires_witness :
  fst (validate_session demo.imports (demo.strict_env 500) "sid-a" "10.9.9.9"
         demo.manager) = None
  ∧ fst (validate_session demo.imports (demo.strict_env 500) "sid-a" "10.0.0.1"
           (snd (validate_session demo.imports (demo.strict_env 500) "sid-a" "10.9.9.9"
                   demo.manager))) = Some 0%nat.
Proof.
  destruct (validate_session_only_expires demo.imports (demo.strict_env 500) "sid-a"
              "10.9.9.9" demo.manager) as (_ & _ & H3).
  apply (H3 0%nat demo.alice_session); try reflexivity.
  - vm_compute. discriminate.
  - discriminate.
Defined.

Lemma cleanup_removes_expired_witness :
  session_at demo.manager "sid-a" = Some (0%nat, demo.alice_session)
  ∧ session_at (snd (cleanup_expired_sessions demo.imports (demo.env 2000) demo.manager))
      "sid-a" = None
  ∧ session_at (snd (cleanup_expired_sessions demo.imports (demo.env 700) demo.manager))
      "sid-a" = Some (0%nat, demo.alice_session).
Proof.
  split; [reflexivity|]. split.
  - destruct (cleanup_removes_expired demo.imports (demo.env 2000) demo.manager)
      as (_ & _ & H3 & _).
    apply (H3 "sid-a"%string 0%nat demo.alice_session); reflexivity.
  - destruct (cleanup_removes_expired demo.imports (demo.env 700) demo.manager)
      as (_ & _ & _ & H4 & _).
    apply (H4 (proj1 demo_sessions_wf) "sid-a"%string 0%nat demo.alice_session);
      [reflexivity|]. vm_compute. discriminate.
Defined.

Lemma stores_stay_well_formed_witness :
  users_wf (run demo.imports demo.busy_run demo.manager)
  ∧ sessions_wf (run demo.imports demo.busy_run demo.manager).
Proof.
  apply (stores_stay_well_formed demo.imports demo.busy_run demo.manager);
    [apply demo_users_wf|apply demo_sessions_wf].
Defined.

Lemma session_objects_stay_ok_witness :
  Forall session_ok (heap (run demo.imports demo.busy_run demo.manager)).
Proof.
  apply (session_objects_stay_ok demo.imports demo.busy_run demo.manager).
  - repeat (apply Forall_cons; split; [unfold clock_sane, SESSION_TTL; simpl; lia|]).
    apply Forall_nil. done.
  - repeat (apply Forall_cons; split; [split; simpl; lia|]). apply Forall_nil. done.
Defined.

Lemma get_active_sessions_lists_witness :
  session_info demo.imports demo.alice_session
    ∈ get_active_sessions demo.imports "alice" demo.manager
  ∧ pydict.get "session_id" (session_info demo.imports samples.long_id_session)
    ≠ Some (Session.session_id samples.long_id_session).
Proof.
  destruct (get_active_sessions_lists demo.imports "alice" demo.manager) as (H1 & _ & H3).
  split.
  - apply H1. exists 0%nat, demo.alice_session.
    split; [apply list_elem_of_here|]. repeat split; reflexivity.
  - apply H3. simpl. lia.
Defined.

Lemma delete_user_shuts_every_path_witness :
  pydict.contains "alice" (users demo.manager) = true
  ∧ get_active_sessions demo.imports "alice"
      (delete_user demo.imports (demo.env 50) "alice" demo.manager) = []
  ∧ fst (authenticate_jwt demo.imports (demo.env 60) "jwt-alice"
           (delete_user demo.imports (demo.env 50) "alice" demo.manager)) = None.
Proof.
  split; [reflexivity|].
  destruct (proj2 (delete_user_shuts_every_path demo.imports (demo.env 50) "alice"
                     demo.manager)) as (_ & _ & _ & H4 & _ & H6); [reflexivity|].
  split; [exact H6|]. apply H4. reflexivity.
Defined.

Lemma wrapper_accounting_witness :
  wrapper demo.imports None (demo.env 100) samples.anonymous_request demo.manager
  = (HTTP401, demo.manager)
  ∧ fst (wrapper demo.imports None (demo.env 100) demo.both_credentials demo.manager)
    = Handled demo.alice
  ∧ stamps (snd (wrapper demo.imports None (demo.env 100) demo.both_credentials
                   demo.manager)) "alice:/chat" = [100].
Proof.
  split.
  - apply (wrapper_accounting demo.imports None (demo.env 100) samples.anonymous_request
             demo.manager); [reflexivity|left; reflexivity].
  - split; [reflexivity|].
    destruct (wrapper_accounting demo.imports None (demo.env 100) demo.both_credentials
                demo.manager) as (_ & _ & H3 & _).
    destruct (H3 demo.alice) as (_ & Hs & _); [reflexivity|]. exact Hs.
Defined.

Lemma wrapper_permissions_witness :
  fst (wrapper demo.imports (Some ["admin"%string]) (demo.env 100) demo.both_credentials
         demo.manager) = HTTP403
  ∧ ∃ user, fst (resolve demo.imports (demo.env 100) demo.both_credentials demo.manager)
            = Some user
            ∧ ∀ perm, perm ∈ ["admin"%string] → perm ∉ User.permissions user.
Proof.
  split; [reflexivity|].
  destruct (wrapper_permissions demo.imports (Some ["admin"%string]) (demo.env 100)
              demo.both_credentials demo.manager) as (_ & _ & H3).
  apply (H3 ["admin"%string]); reflexivity.
Defined.

Lemma rate_keys_and_sharing_witness :
  rate_key demo.alice "/chat" ≠ rate_key demo.bob "/chat"
  ∧ rate_key (User.mk "alice:v1" "h" [] [] (PDatetime 0) None true 5) "chat"
    = rate_key demo.alice "v1:chat".
Proof.
  destruct rate_keys_and_sharing as (_ & H2 & H3). split.
  - intros Heq. destruct (H2 demo.alice demo.bob "/chat"%string "/chat"%string) as [Hn _];
      [reflexivity|reflexivity|exact Heq|]. discriminate.
  - apply (H3 (User.mk "alice:v1" "h" [] [] (PDatetime 0) None true 5) demo.alice
             "alice"%string "v1"%string "chat"%string); reflexivity.
Defined.

Lemma create_user_then_login_witness :
  pydict.contains "carol" (users demo.manager) = false
  ∧ ∃ logged,
      fst (authenticate_user demo.imports (demo.env 90) "carol" "pw"
             (snd (create_user demo.imports (demo.env 5) "carol" "pw" ["chat"%string]
                     demo.manager))) = Some logged
      ∧ User.last_login logged = Some (PDatetime 90)
      ∧ User.username logged = "carol"%string.
Proof.
  split; [reflexivity|].
  destruct (proj2 (create_user_then_login demo.imports (demo.env 5) "carol" "pw"
                     ["chat"%string] demo.manager)) as (_ & _ & _ & H4 & _);
    [reflexivity|].
  apply (H4 (demo.env 90) "pw"%string). reflexivity.
Defined.

Lemma login_and_failed_attempts_witness :
  pydict.get "alice" (users demo.manager) = Some demo.alice
  ∧ failed_attempts
      (snd (authenticate_user demo.imports (demo.env 160) "alice" "wonderland"
              (run demo.imports demo.five_failures demo.manager)))
    = failed_attempts (run demo.imports demo.five_failures demo.manager).
Proof.
  split; [reflexivity|].
  destruct (login_and_failed_attempts demo.imports (demo.env 160) "alice" "wonderland"
              (run demo.imports demo.five_failures demo.manager) demo.alice)
    as [H1 _]; [reflexivity|reflexivity|].
  apply H1. reflexivity.
Defined.

Lemma get_user_info_sanitized_witness :
  pydict.get "alice" (users demo.manager) = Some demo.alice
  ∧ pydict.get "alice" (users samples.rekeyed_manager) = Some samples.alice_rekeyed
  ∧ get_user_info demo.imports "alice" samples.rekeyed_manager
    = get_user_info demo.imports "alice" demo.manager.
Proof.
  split; [reflexivity|]. split; [reflexivity|].
  destruct (get_user_info_sanitized demo.imports "alice" demo.manager) as (_ & _ & H3).
  apply (H3 samples.rekeyed_manager demo.alice samples.alice_rekeyed); reflexivity.
Defined.

Lemma default_admin_bootstrap_witness :
  users samples.empty_manager = []
  ∧ users (_create_default_admin demo.imports (demo.env 1) None "dr4w"
             samples.empty_manager)
    = [("admin"%string,
        User.mk "admin" "bcrypt:dr4w" ["pllm_k3Qx"%string]
                ["admin"%string; "chat"%string; "models"%string]
                (PDatetime 1) None true 1000)]
  ∧ users (_create_default_admin demo.imports (demo.env 1) (Some "s3cret"%string) "dr4w"
             samples.empty_manager)
    = [("admin"%string,
        User.mk "admin" "bcrypt:s3cret" ["pllm_k3Qx"%string]
                ["admin"%string; "chat"%string; "models"%string]
                (PDatetime 1) None true 1000)].
Proof.
  split; [reflexivity|]. split.
  - apply (default_admin_bootstrap demo.imports (demo.env 1) None "dr4w"
             samples.empty_manager); reflexivity.
  - apply (default_admin_bootstrap demo.imports (demo.env 1) (Some "s3cret"%string)
             "dr4w" samples.empty_manager); reflexivity.
Defined.

Lemma non_bearer_header_is_ignored_witness :
  bearer_token (authorization samples.basic_header_request) = None
  ∧ fst (resolve demo.imports (demo.env 100) samples.basic_header_request demo.manager)
    = Some demo.bob.
Proof.
  split; [reflexivity|].
  destruct (non_bearer_header_is_ignored demo.imports None (demo.env 100)
              samples.basic_header_request demo.manager) as (_ & _ & H3).
  apply (H3 "sid-b"%string 1%nat demo.bob_session);
    first [reflexivity | discriminate | vm_compute; discriminate].
Defined.
